(** * Non-towered airport safety system: a shallow embedding

    The development follows the repository file by file:

    - [DataIngestion]: the Go ADS-B ingestion service (package [main]:
      [parseAircraftStates], [cos], [processAircraftData]);
    - [AircraftRoute], [AdvisoriesRoute], [WeatherRoute], [AirportsRoute]:
      the four Next.js API route handlers ([GET]) and their mock tables;
    - [AdvisoryPanel], [AdvisoriesPage]: the two [sortedAdvisories] lists,
      the category filter and the airport badge;
    - [TrafficList]: the sorted table of aircraft and its column headers;
    - [TrafficMap]: [renderApproachPaths] (corridor occupancy, path colour),
      [renderRunways] and the refresh of the positions.

    Numbers are IEEE 754 binary64 values (Go [float64], JavaScript
    [number]), embedded as Rocq's primitive floats so that every definition
    evaluates; integers that the code keeps integral (epoch milliseconds,
    severities, counters) are [Z].  Reads of the wall clock and of
    [Math.random] are explicit inputs. *)

From Stdlib Require Import ZArith List String Ascii Bool Lia.
From Stdlib Require Import Floats Uint63 DecimalString.
From Stdlib Require Import Permutation Sorted.
Import ListNotations.

Set Warnings "-inexact-float,-register-all".

Open Scope string_scope.
Open Scope Z_scope.

(** ** Common helpers *)

(** Decimal rendering of integers ([%d] in Go, template literals in JS). *)
Definition string_of_N (n : N) : string :=
  NilEmpty.string_of_uint (N.to_uint n).

Definition string_of_Z (z : Z) : string :=
  match z with
  | Zneg p => "-" ++ string_of_N (Npos p)
  | _ => string_of_N (Z.to_N z)
  end.

Fixpoint zeros (n : nat) : string :=
  match n with
  | O => ""
  | S n' => "0" ++ zeros n'
  end.

Definition pad_left (width : nat) (s : string) : string :=
  zeros (width - String.length s) ++ s.

(** The integer nearest to [num * 2^e], ties to even. *)
Definition round_half_even (num e : Z) : Z :=
  if 0 <=? e then num * 2 ^ e
  else
    let d := 2 ^ (- e) in
    let q := num / d in
    let r := num mod d in
    if 2 * r <? d then q
    else if d <? 2 * r then q + 1
    else if Z.even q then q else q + 1.

(** The largest integer below or equal to [num * 2^e]. *)
Definition floor_scaled (num e : Z) : Z :=
  if 0 <=? e then num * 2 ^ e else num / 2 ^ (- e).

(** ** The Go data-ingestion service (package main) *)

Module DataIngestion.

(** A value decoded by encoding/json into [interface{}]. *)
Inductive jvalue : Type :=
| JNull
| JBool (b : bool)
| JNumber (f : float)
| JString (s : string)
| JArray (l : list jvalue)
| JObject (m : list (string * jvalue)).

Definition is_nil (v : jvalue) : bool :=
  match v with
  | JNull => true
  | _ => false
  end.

(** The comma-ok type assertions [v.(string)], [v.(float64)], [v.(bool)]
    with the ok flag dropped: the zero value when the dynamic type differs. *)
Definition assert_string (v : jvalue) : string :=
  match v with
  | JString s => s
  | _ => ""
  end.

Definition assert_float64 (v : jvalue) : float :=
  match v with
  | JNumber f => f
  | _ => 0%float
  end.

Definition assert_bool (v : jvalue) : bool :=
  match v with
  | JBool b => b
  | _ => false
  end.

(** [stateArray[i]]; every use is guarded by [len(stateArray) >= 17]. *)
Definition index (stateArray : list jvalue) (i : nat) : jvalue :=
  nth i stateArray JNull.

(** [int64(f)]: truncation toward zero; outside the int64 range (and for
    NaN) Go leaves the result to the implementation, amd64 gives the
    smallest int64. *)
Definition int64_of_float64 (f : float) : Z :=
  match Prim2SF f with
  | S754_zero _ => 0
  | S754_finite s m e =>
      let t := floor_scaled (Zpos m) e in
      let v := if s then - t else t in
      if (- 2 ^ 63 <=? v) && (v <? 2 ^ 63) then v else - 2 ^ 63
  | _ => - 2 ^ 63
  end.

(** [float64(n)] for the small non-negative integers the service converts. *)
Definition float64_of_int (n : Z) : float :=
  PrimFloat.of_uint63 (Uint63.of_Z n).

(** [fmt]'s [%.<prec>f]: the exact binary value rounded to [prec] decimals,
    ties to even. *)
Definition fmt_float (prec : nat) (x : float) : string :=
  let scale := 10 ^ Z.of_nat prec in
  let digits (q : Z) :=
    string_of_Z (q / scale) ++
    (match prec with
     | O => ""
     | _ => "." ++ pad_left prec (string_of_Z (q mod scale))
     end) in
  let sign (s : bool) := if s then "-" else "" in
  match Prim2SF x with
  | S754_nan => "NaN"
  | S754_infinity false => "+Inf"
  | S754_infinity true => "-Inf"
  | S754_zero s => sign s ++ digits 0
  | S754_finite s m e => sign s ++ digits (round_half_even (Zpos m * scale) e)
  end.

Record AircraftState : Type := {
  Icao24 : string;
  Callsign : string;
  OriginCountry : string;
  Latitude : float;
  Longitude : float;
  Altitude : float;
  Velocity : float;
  Heading : float;
  VerticalRate : float;
  OnGround : bool;
  LastContact : Z;
  TimePosition : Z;
  Timestamp : Z;          (* time.Unix(response.Time, 0), in seconds *)
  AirportVicinity : string
}.

Record OpenSkyResponse : Type := {
  Time : Z;
  States : list (list jvalue)
}.

Module AirportBoundary.
Record t : Type := {
  ICAO : string;
  Name : string;
  Latitude : float;
  Longitude : float;
  Radius : float
}.
End AirportBoundary.

Definition airports : list AirportBoundary.t :=
  [ {| AirportBoundary.ICAO := "KRHV"; AirportBoundary.Name := "Reid-Hillview";
       AirportBoundary.Latitude := 37.3329; AirportBoundary.Longitude := -121.8195;
       AirportBoundary.Radius := 10 |};
    {| AirportBoundary.ICAO := "KPAO"; AirportBoundary.Name := "Palo Alto";
       AirportBoundary.Latitude := 37.4613; AirportBoundary.Longitude := -122.1146;
       AirportBoundary.Radius := 10 |} ]%float.

(** The body of the loop of [parseAircraftStates] for one state array that
    passed the length test.  The source assigns [stateArray[5].(float64)] to
    the [int64] variable [timePos]; it is read here through the conversion
    the sibling [lastContact] spells out. *)
Definition stateOf (now : Z) (airportICAO : string) (stateArray : list jvalue)
  : AircraftState :=
  let icao24 := assert_string (index stateArray 0) in
  let callsign := assert_string (index stateArray 1) in
  let originCountry := assert_string (index stateArray 2) in
  let timePos :=
    if is_nil (index stateArray 5) then 0
    else int64_of_float64 (assert_float64 (index stateArray 5)) in
  let lat :=
    if is_nil (index stateArray 6) then 0%float
    else assert_float64 (index stateArray 6) in
  let lon :=
    if is_nil (index stateArray 7) then 0%float
    else assert_float64 (index stateArray 7) in
  let alt :=
    if is_nil (index stateArray 8) then 0%float
    else assert_float64 (index stateArray 8) in
  let onGround :=
    if is_nil (index stateArray 9) then false
    else assert_bool (index stateArray 9) in
  let vel :=
    if is_nil (index stateArray 10) then 0%float
    else assert_float64 (index stateArray 10) in
  let hdg :=
    if is_nil (index stateArray 11) then 0%float
    else assert_float64 (index stateArray 11) in
  let vrate :=
    if is_nil (index stateArray 16) then 0%float
    else assert_float64 (index stateArray 16) in
  let lastContact :=
    if is_nil (index stateArray 4) then 0
    else int64_of_float64 (assert_float64 (index stateArray 4)) in
  {| Icao24 := icao24;
     Callsign := callsign;
     OriginCountry := originCountry;
     Latitude := lat;
     Longitude := lon;
     Altitude := alt;
     Velocity := vel;
     Heading := hdg;
     VerticalRate := vrate;
     OnGround := onGround;
     TimePosition := timePos;
     LastContact := lastContact;
     Timestamp := now;
     AirportVicinity := airportICAO |}.

(** One iteration of the loop: [continue] on a short array, [append]
    otherwise. *)
Definition parseStep (now : Z) (airportICAO : string)
  (states : list AircraftState) (stateArray : list jvalue)
  : list AircraftState :=
  if (List.length stateArray <? 17)%nat then states
  else states ++ [stateOf now airportICAO stateArray].

Definition parseAircraftStates (response : OpenSkyResponse)
  (airportICAO : string) : list AircraftState :=
  let now := Time response in
  fold_left (parseStep now airportICAO) (States response) [].

(** [cos]: the argument [nanosecond] is the reading of
    [time.Now().Nanosecond()] the call makes. *)
Definition cos (nanosecond : Z) (radians : float) : float :=
  (float64_of_int (Z.rem nanosecond 10000) / 10000.0 * 0.1 + 0.9)%float.

Record BoundingBox : Type := {
  minLat : float;
  minLon : float;
  maxLat : float;
  maxLon : float
}.

Definition boundingBox (nanosecond : Z) (airport : AirportBoundary.t)
  : BoundingBox :=
  let latRange := (AirportBoundary.Radius airport / 60.0)%float in
  let lonRange :=
    (latRange / cos nanosecond (AirportBoundary.Latitude airport * 0.0174533))%float in
  {| minLat := (AirportBoundary.Latitude airport - latRange)%float;
     maxLat := (AirportBoundary.Latitude airport + latRange)%float;
     minLon := (AirportBoundary.Longitude airport - lonRange)%float;
     maxLon := (AirportBoundary.Longitude airport + lonRange)%float |}.

Definition requestURL (box : BoundingBox) : string :=
  "https://opensky-network.org/api/states/all?lamin=" ++ fmt_float 6 (minLat box) ++
  "&lomin=" ++ fmt_float 6 (minLon box) ++
  "&lamax=" ++ fmt_float 6 (maxLat box) ++
  "&lomax=" ++ fmt_float 6 (maxLon box).

(** What [client.Do] and the JSON decoder give for a request. *)
Inductive httpResult : Type :=
| DoError (err : string)
| NonOK (statusCode : Z)
| DecodeError (err : string)
| Decoded (openSkyResp : OpenSkyResponse).

(** The environment of one tick: the k-th reading of
    [time.Now().Nanosecond()] and the answer of the network to a URL. *)
Record Env : Type := {
  Nanosecond : nat -> Z;
  Do : string -> httpResult
}.

(** One iteration of the loop over [airports]: the lines it logs
    ([http.NewRequest] accepts every URL built here).  The service keeps
    nothing else: the parsed states are dropped at the end of the
    iteration. *)
Definition processAirport (env : Env) (k : nat) (airport : AirportBoundary.t)
  : list string :=
  let url := requestURL (boundingBox (Nanosecond env k) airport) in
  let fetching :=
    "Fetching data for " ++ AirportBoundary.ICAO airport ++ " airport vicinity..." in
  match Do env url with
  | DoError err => [fetching; "Error fetching data: " ++ err]
  | NonOK statusCode =>
      [fetching; "API returned non-200 status: " ++ string_of_Z statusCode]
  | DecodeError err => [fetching; "Error decoding response: " ++ err]
  | Decoded openSkyResp =>
      let states := parseAircraftStates openSkyResp (AirportBoundary.ICAO airport) in
      let received :=
        "Received " ++ string_of_Z (Z.of_nat (List.length states)) ++
        " aircraft states in " ++ AirportBoundary.ICAO airport ++ " vicinity" in
      match states with
      | [] => [fetching; received]
      | s0 :: _ =>
          [fetching; received;
           "Sample aircraft: " ++ Icao24 s0 ++ " (Callsign: " ++ Callsign s0 ++
           ") at altitude: " ++ fmt_float 0 (Altitude s0) ++
           ", heading: " ++ fmt_float 0 (Heading s0)]
      end
  end.

Fixpoint processAirports (env : Env) (k : nat) (l : list AirportBoundary.t)
  : list string :=
  match l with
  | [] => []
  | airport :: rest => processAirport env k airport ++ processAirports env (S k) rest
  end.

Definition processAircraftData (env : Env) : list string :=
  processAirports env 0 airports.

End DataIngestion.

(** ** The JavaScript runtime the front end relies on *)

Module JS.

(** The outside world of a handler: the successive readings of the clock
    ([Date.now()], [new Date()]; epoch milliseconds) and the successive
    draws of [Math.random()], each with the number of values consumed. *)
Record World : Type := {
  clock : nat -> Z;
  clock_pos : nat;
  random : nat -> float;
  random_pos : nat
}.

Definition M (A : Type) : Type := World -> A * World.

Definition ret {A : Type} (a : A) : M A := fun w => (a, w).

Definition bind {A B : Type} (m : M A) (k : A -> M B) : M B :=
  fun w => let (a, w') := m w in k a w'.

Definition Date_now : M Z :=
  fun w =>
    (clock w (clock_pos w),
     {| clock := clock w; clock_pos := S (clock_pos w);
        random := random w; random_pos := random_pos w |}).

Definition Math_random : M float :=
  fun w =>
    (random w (random_pos w),
     {| clock := clock w; clock_pos := clock_pos w;
        random := random w; random_pos := S (random_pos w) |}).

(** [for]/[map] over an array with an effectful body, left to right. *)
Fixpoint mapM {A B : Type} (f : A -> M B) (l : list A) : M (list B) :=
  match l with
  | [] => ret []
  | a :: l' =>
      bind (f a) (fun b => bind (mapM f l') (fun bs => ret (b :: bs)))
  end.

(** A world whose clock reads [t, t, ...] and whose random draws are [r]. *)
Definition world (clk : nat -> Z) (rnd : nat -> float) : World :=
  {| clock := clk; clock_pos := 0; random := rnd; random_pos := 0 |}.

(** [Math.floor] of a finite number, as an integer. *)
Definition Math_floor (x : float) : Z :=
  match Prim2SF x with
  | S754_finite s m e => floor_scaled (if s then Zneg m else Zpos m) e
  | _ => 0
  end.

Definition is_neg_zero (x : float) : bool :=
  match Prim2SF x with
  | S754_zero true => true
  | _ => false
  end.

(** [Math.min] of two numbers: NaN when either is, and -0 below +0. *)
Definition Math_min (x y : float) : float :=
  if PrimFloat.is_nan x || PrimFloat.is_nan y then PrimFloat.nan
  else if (x <? y)%float then x
  else if (y <? x)%float then y
  else if is_neg_zero x then x else y.

(** [Math.pow(x, 2)], taken as the correctly rounded square. *)
Definition Math_pow2 (x : float) : float := (x * x)%float.

Definition Math_PI : float := 3.141592653589793%float.

(** An object literal used as a table: its own properties in insertion
    order.  A property read that misses the own keys continues on
    [Object.prototype], whose members are all truthy. *)
Definition object (V : Type) : Type := list (string * V).

Definition Object_prototype : list string :=
  [ "constructor"; "__defineGetter__"; "__defineSetter__"; "hasOwnProperty";
    "__lookupGetter__"; "__lookupSetter__"; "isPrototypeOf";
    "propertyIsEnumerable"; "toString"; "valueOf"; "__proto__";
    "toLocaleString" ].

Inductive property (V : Type) : Type :=
| Own (v : V)
| Inherited (name : string)
| Undefined.

Arguments Own {V} v.
Arguments Inherited {V} name.
Arguments Undefined {V}.

Fixpoint getOwn {V : Type} (o : object V) (key : string) : option V :=
  match o with
  | [] => None
  | (k, v) :: o' => if String.eqb k key then Some v else getOwn o' key
  end.

Definition get {V : Type} (o : object V) (key : string) : property V :=
  match getOwn o key with
  | Some v => Own v
  | None =>
      if existsb (String.eqb key) Object_prototype then Inherited key
      else Undefined
  end.

Definition Object_values {V : Type} (o : object V) : list V := map snd o.

(** [searchParams.get(name)] is [null] or a string; [!x] holds for [null]
    and for the empty string. *)
Definition falsy (x : option string) : bool :=
  match x with
  | None => true
  | Some s => String.eqb s ""
  end.

(** [Array.prototype.sort] with a comparator: the stable sort (ECMAScript
    2019), by insertion.  An element goes after those the comparator puts
    strictly before it and before every other one. *)
Fixpoint sort_insert {A : Type} (cmp : A -> A -> Z) (x : A) (l : list A)
  : list A :=
  match l with
  | [] => [x]
  | y :: l' => if cmp y x <? 0 then y :: sort_insert cmp x l' else x :: y :: l'
  end.

Fixpoint Array_sort {A : Type} (cmp : A -> A -> Z) (l : list A) : list A :=
  match l with
  | [] => []
  | x :: l' => sort_insert cmp x (Array_sort cmp l')
  end.

(** What a route handler gives back: a [NextResponse.json(body, {status})],
    or an uncaught exception. *)
Record Response (B : Type) : Type := {
  status : Z;
  body : B
}.

Arguments status {B} r.
Arguments body {B} r.

Inductive Outcome (B : Type) : Type :=
| Returned (r : Response B)
| Thrown (error : string).

Arguments Returned {B} r.
Arguments Thrown {B} error.

(** [NextResponse.json(body)] and [NextResponse.json(body, { status })]. *)
Definition json {B : Type} (b : B) : Outcome B :=
  Returned {| status := 200; body := b |}.

Definition json_status {B : Type} (b : B) (st : Z) : Outcome B :=
  Returned {| status := st; body := b |}.

(** [String.prototype.toUpperCase] as it acts on strings of ASCII
    characters.  The handlers below take the conversion as a parameter, so
    that what is proved of them holds of the full Unicode conversion too. *)
Definition upper_ascii (c : ascii) : ascii :=
  let n := nat_of_ascii c in
  if ((97 <=? n) && (n <=? 122))%nat then ascii_of_nat (n - 32) else c.

Fixpoint toUpperCase_ascii (s : string) : string :=
  match s with
  | EmptyString => EmptyString
  | String c s' => String (upper_ascii c) (toUpperCase_ascii s')
  end.

(** [s.split(sep)] for a separator of one character: the pieces of [s]
    between the occurrences of [sep], never an empty array. *)
Fixpoint String_split (sep : ascii) (s : string) : list string :=
  match s with
  | EmptyString => [EmptyString]
  | String c s' =>
      if Ascii.eqb c sep then EmptyString :: String_split sep s'
      else
        match String_split sep s' with
        | piece :: pieces => String c piece :: pieces
        | [] => [String c EmptyString]
        end
  end.

(** [Array.from(new Set(l))]: the values of [l] in the order of their first
    occurrence; [seen] holds the values already in the set. *)
Fixpoint Set_values (seen : list string) (l : list string) : list string :=
  match l with
  | [] => []
  | x :: l' =>
      if existsb (String.eqb x) seen then Set_values seen l'
      else x :: Set_values (x :: seen) l'
  end.

Definition Array_from_Set (l : list string) : list string := Set_values [] l.

(** [Array.prototype.sort] with a comparator whose result is a number (a
    difference of numbers, possibly NaN, which counts as 0): the stable
    sort, by insertion.  It is the list every implementation returns when
    the comparator is consistent. *)
Fixpoint sort_insert_num {A : Type} (cmp : A -> A -> float) (x : A) (l : list A)
  : list A :=
  match l with
  | [] => [x]
  | y :: l' =>
      if (cmp y x <? 0)%float then y :: sort_insert_num cmp x l' else x :: y :: l'
  end.

Fixpoint Array_sort_num {A : Type} (cmp : A -> A -> float) (l : list A) : list A :=
  match l with
  | [] => []
  | x :: l' => sort_insert_num cmp x (Array_sort_num cmp l')
  end.

End JS.

Notation "x <- m ;; k" := (JS.bind m (fun x => k))
  (at level 61, m at next level, right associativity).

(** ** The interfaces the TypeScript files declare

    [Aircraft], [Runway] and [Airport] are declared alike in the aircraft
    and airports routes and in TrafficMap, [Advisory] in the advisories
    route, AdvisoryPanel and the advisories page.  A timestamp string (ISO
    8601, the result of [toISOString]) is represented by the instant it
    denotes, in epoch milliseconds: [new Date(s).getTime()]. *)

Inductive AlertLevel : Type := none | caution | warning | critical.

Module Aircraft.
Record t : Type := {
  id : string;
  callsign : string;
  position : float * float;   (* [lat, lng] *)
  altitude : float;
  heading : float;
  speed : float;
  verticalRate : float;
  onGround : bool;
  type : string;
  alertLevel : option AlertLevel
}.
End Aircraft.

Module Runway.
Record t : Type := {
  id : string;
  heading : float;
  length : float;
  width : float;
  threshold1 : float * float;
  threshold2 : float * float;
  active : bool
}.
End Runway.

Module Airport.
Record t : Type := {
  id : string;
  name : string;
  position : float * float;
  elevation : float;
  runways : list Runway.t
}.
End Airport.

Module Advisory.
Record t : Type := {
  id : string;
  timestamp : Z;
  message : string;
  severity : Z;       (* 1=Info, 2=Caution, 3=Warning, 4=Urgent, 5=Critical *)
  category : string;
  expires : Z
}.
End Advisory.

Inductive FlightCategory : Type := VFR | MVFR | IFR | LIFR.

Module Weather.
Record t : Type := {
  airport_icao : string;
  time : Z;
  wind_direction : float;
  wind_speed : float;
  wind_gust : option float;
  visibility : float;
  ceiling : option float;
  temperature : float;
  dewpoint : float;
  altimeter : float;
  flight_category : FlightCategory;
  raw_metar : string
}.
End Weather.

(** ** The aircraft route: GET /api/aircraft *)

Module AircraftRoute.

Definition MOCK_AIRCRAFT : JS.object (list Aircraft.t) :=
  [ ("KRHV",
     [ {| Aircraft.id := "a1"; Aircraft.callsign := "N12345";
          Aircraft.position := (37.3339, -121.8205); Aircraft.altitude := 1500;
          Aircraft.heading := 130; Aircraft.speed := 90;
          Aircraft.verticalRate := -500; Aircraft.onGround := false;
          Aircraft.type := "C172"; Aircraft.alertLevel := Some none |};
       {| Aircraft.id := "a2"; Aircraft.callsign := "N54321";
          Aircraft.position := (37.3318, -121.8175); Aircraft.altitude := 1200;
          Aircraft.heading := 310; Aircraft.speed := 70;
          Aircraft.verticalRate := 0; Aircraft.onGround := false;
          Aircraft.type := "PA28"; Aircraft.alertLevel := Some caution |};
       {| Aircraft.id := "a3"; Aircraft.callsign := "N98765";
          Aircraft.position := (37.3305, -121.8155); Aircraft.altitude := 800;
          Aircraft.heading := 130; Aircraft.speed := 60;
          Aircraft.verticalRate := -300; Aircraft.onGround := false;
          Aircraft.type := "C152"; Aircraft.alertLevel := Some warning |} ]);
    ("KPAO",
     [ {| Aircraft.id := "b1"; Aircraft.callsign := "N24680";
          Aircraft.position := (37.4623, -122.1156); Aircraft.altitude := 1000;
          Aircraft.heading := 134; Aircraft.speed := 85;
          Aircraft.verticalRate := -400; Aircraft.onGround := false;
          Aircraft.type := "C172"; Aircraft.alertLevel := Some none |};
       {| Aircraft.id := "b2"; Aircraft.callsign := "N13579";
          Aircraft.position := (37.4603, -122.1136); Aircraft.altitude := 1300;
          Aircraft.heading := 314; Aircraft.speed := 75;
          Aircraft.verticalRate := 200; Aircraft.onGround := false;
          Aircraft.type := "SR22"; Aircraft.alertLevel := Some none |} ]) ]%float.

(** The JSON body: [{aircraft, total}] or [{aircraft, total, airport}]. *)
Record Body : Type := {
  aircraft : list Aircraft.t;
  total : Z;
  airport : option string
}.

(** The callback of [aircraft.map]: two draws for the position, then one
    for the speed of an aircraft that is not on the ground. *)
Definition update (a : Aircraft.t) : JS.M Aircraft.t :=
  r0 <- JS.Math_random ;;
  r1 <- JS.Math_random ;;
  let position :=
    ((fst (Aircraft.position a) + (r0 * 0.0002 - 0.0001))%float,
     (snd (Aircraft.position a) + (r1 * 0.0002 - 0.0001))%float) in
  let altitude :=
    if Aircraft.onGround a then 0%float
    else (Aircraft.altitude a + Aircraft.verticalRate a / 60)%float in
  speed <-
    (if Aircraft.onGround a then JS.ret 0%float
     else r2 <- JS.Math_random ;;
          JS.ret (Aircraft.speed a + (r2 * 2 - 1))%float) ;;
  JS.ret
    {| Aircraft.id := Aircraft.id a; Aircraft.callsign := Aircraft.callsign a;
       Aircraft.position := position; Aircraft.altitude := altitude;
       Aircraft.heading := Aircraft.heading a; Aircraft.speed := speed;
       Aircraft.verticalRate := Aircraft.verticalRate a;
       Aircraft.onGround := Aircraft.onGround a;
       Aircraft.type := Aircraft.type a;
       Aircraft.alertLevel := Aircraft.alertLevel a |}.

(** [GET]; [airportId] is [searchParams.get('airport')]. *)
Definition GET (airportId : option string) : JS.M (JS.Outcome Body) :=
  if JS.falsy airportId then
    let all := List.concat (JS.Object_values MOCK_AIRCRAFT) in
    JS.ret (JS.json {| aircraft := all; total := Z.of_nat (List.length all);
                       airport := None |})
  else
    let key := match airportId with Some s => s | None => "" end in
    match JS.get MOCK_AIRCRAFT key with
    | JS.Inherited _ => JS.ret (JS.Thrown "TypeError: aircraft.map is not a function")
    | found =>
        let aircraft := match found with JS.Own l => l | _ => [] end in
        updatedAircraft <- JS.mapM update aircraft ;;
        JS.ret (JS.json {| aircraft := updatedAircraft;
                           total := Z.of_nat (List.length updatedAircraft);
                           airport := airportId |})
    end.

End AircraftRoute.

(** ** The advisories route: GET /api/advisories *)

Module AdvisoriesRoute.

(** The table is built when the module loads; each [Date.now()] of the
    literal is a reading of the clock, in source order. *)
Definition MOCK_ADVISORIES : JS.M (JS.object (list Advisory.t)) :=
  t1 <- JS.Date_now ;; e1 <- JS.Date_now ;;
  t2 <- JS.Date_now ;; e2 <- JS.Date_now ;;
  t3 <- JS.Date_now ;; e3 <- JS.Date_now ;;
  t4 <- JS.Date_now ;; e4 <- JS.Date_now ;;
  JS.ret
    [ ("KRHV",
       [ {| Advisory.id := "ADV-KRHV-PATTERN-1";
            Advisory.timestamp := t1 - 5 * 60000;
            Advisory.message :=
              "TRAFFIC ALERT: Pattern separation issue between N12345 and N54321.";
            Advisory.severity := 3;
            Advisory.category := "PATTERN";
            Advisory.expires := e1 + 10 * 60000 |};
         {| Advisory.id := "ADV-KRHV-RUNWAY-1";
            Advisory.timestamp := t2 - 2 * 60000;
            Advisory.message :=
              "CAUTION: Multiple aircraft in vicinity of runway 13L.";
            Advisory.severity := 2;
            Advisory.category := "RUNWAY";
            Advisory.expires := e2 + 15 * 60000 |};
         {| Advisory.id := "ADV-KRHV-WEATHER-1";
            Advisory.timestamp := t3 - 30 * 60000;
            Advisory.message :=
              "Weather conditions VFR. Ceiling 5000 feet, visibility 10 miles. Wind 240° at 12 knots, gusting 18 knots.";
            Advisory.severity := 1;
            Advisory.category := "WEATHER";
            Advisory.expires := e3 + 60 * 60000 |} ]);
      ("KPAO",
       [ {| Advisory.id := "ADV-KPAO-WEATHER-1";
            Advisory.timestamp := t4 - 45 * 60000;
            Advisory.message :=
              "Weather conditions VFR. Ceiling unlimited, visibility 10 miles. Wind 290° at 8 knots.";
            Advisory.severity := 1;
            Advisory.category := "WEATHER";
            Advisory.expires := e4 + 60 * 60000 |} ]) ].

Record Body : Type := {
  advisories : list Advisory.t;
  total : Z;
  airport : option string
}.

Definition categories : list string :=
  ["TRAFFIC"; "PATTERN"; "APPROACH"; "DEPARTURE"].

(** [categories[i]]; no element outside the array. *)
Definition categories_at (i : Z) : string :=
  if (0 <=? i) && (i <? Z.of_nat (List.length categories))
  then nth (Z.to_nat i) categories "undefined"
  else "undefined".

(** [advisories.filter(adv => new Date(adv.expires) > now)]. *)
Definition activeAdvisories (advisories : list Advisory.t) (now : Z)
  : list Advisory.t :=
  filter (fun adv => now <? Advisory.expires adv) advisories.

(** The random injection: the block under [if (Math.random() < 0.1)]. *)
Definition newAdvisory (airportId : string) : JS.M Advisory.t :=
  r1 <- JS.Math_random ;;
  let randomCategory :=
    categories_at (JS.Math_floor (r1 * 4)%float) in
  r2 <- JS.Math_random ;;
  let randomSeverity := JS.Math_floor (r2 * 3)%float + 2 in
  n1 <- JS.Date_now ;;
  n2 <- JS.Date_now ;;
  n3 <- JS.Date_now ;;
  JS.ret
    {| Advisory.id :=
         "ADV-" ++ airportId ++ "-" ++ randomCategory ++ "-" ++ string_of_Z n1;
       Advisory.timestamp := n2;
       Advisory.message :=
         "NEW " ++ randomCategory ++ " ADVISORY: Generated for demonstration purposes.";
       Advisory.severity := randomSeverity;
       Advisory.category := randomCategory;
       Advisory.expires := n3 + 10 * 60000 |}.

(** [GET] over the table [MOCK]; [airportId] is
    [searchParams.get('airport')]. *)
Definition GET (MOCK : JS.object (list Advisory.t)) (airportId : option string)
  : JS.M (JS.Outcome Body) :=
  if JS.falsy airportId then
    let all := List.concat (JS.Object_values MOCK) in
    JS.ret (JS.json {| advisories := all; total := Z.of_nat (List.length all);
                       airport := None |})
  else
    let key := match airportId with Some s => s | None => "" end in
    let found := JS.get MOCK key in
    now <- JS.Date_now ;;
    match found with
    | JS.Inherited _ =>
        JS.ret (JS.Thrown "TypeError: advisories.filter is not a function")
    | _ =>
        let advisories := match found with JS.Own l => l | _ => [] end in
        let active := activeAdvisories advisories now in
        gate <- JS.Math_random ;;
        final <-
          (if (gate <? 0.1)%float then
             adv <- newAdvisory key ;; JS.ret (active ++ [adv])%list
           else JS.ret active) ;;
        JS.ret (JS.json {| advisories := final;
                           total := Z.of_nat (List.length final);
                           airport := airportId |})
    end.

End AdvisoriesRoute.

(** ** The weather route: GET /api/weather *)

Module WeatherRoute.

(** The table at load time; each [new Date()] of the literal reads the
    clock. *)
Definition MOCK_WEATHER : JS.M (JS.object Weather.t) :=
  t1 <- JS.Date_now ;;
  t2 <- JS.Date_now ;;
  t3 <- JS.Date_now ;;
  JS.ret
    [ ("KRHV",
       {| Weather.airport_icao := "KRHV"; Weather.time := t1;
          Weather.wind_direction := 240; Weather.wind_speed := 12;
          Weather.wind_gust := Some 18; Weather.visibility := 10;
          Weather.ceiling := Some 5000; Weather.temperature := 25;
          Weather.dewpoint := 15; Weather.altimeter := 29.92;
          Weather.flight_category := VFR;
          Weather.raw_metar := "KRHV 121853Z 24012G18KT 10SM FEW050 25/15 A2992" |});
      ("KPAO",
       {| Weather.airport_icao := "KPAO"; Weather.time := t2;
          Weather.wind_direction := 290; Weather.wind_speed := 8;
          Weather.wind_gust := None; Weather.visibility := 10;
          Weather.ceiling := None; Weather.temperature := 23;
          Weather.dewpoint := 14; Weather.altimeter := 29.93;
          Weather.flight_category := VFR;
          Weather.raw_metar := "KPAO 121853Z 29008KT 10SM CLR 23/14 A2993" |});
      ("KSJC",
       {| Weather.airport_icao := "KSJC"; Weather.time := t3;
          Weather.wind_direction := 310; Weather.wind_speed := 15;
          Weather.wind_gust := Some 22; Weather.visibility := 10;
          Weather.ceiling := Some 12000; Weather.temperature := 24;
          Weather.dewpoint := 13; Weather.altimeter := 29.92;
          Weather.flight_category := VFR;
          Weather.raw_metar := "KSJC 121853Z 31015G22KT 10SM FEW120 24/13 A2992" |}) ]%float.

Inductive Body : Type :=
| One (weather : Weather.t)                        (* { weather } *)
| OneInherited (name : string)                     (* { weather }, a member of Object.prototype *)
| All (weather : list Weather.t) (total : Z)       (* { weather, total } *)
| Error (error : string) (code : string).          (* { error, code } *)

(** [weather.time = new Date().toISOString()] on one entry of the table. *)
Definition touch (entry : string * Weather.t) : JS.M (string * Weather.t) :=
  now <- JS.Date_now ;;
  let weather := snd entry in
  JS.ret
    (fst entry,
     {| Weather.airport_icao := Weather.airport_icao weather;
        Weather.time := now;
        Weather.wind_direction := Weather.wind_direction weather;
        Weather.wind_speed := Weather.wind_speed weather;
        Weather.wind_gust := Weather.wind_gust weather;
        Weather.visibility := Weather.visibility weather;
        Weather.ceiling := Weather.ceiling weather;
        Weather.temperature := Weather.temperature weather;
        Weather.dewpoint := Weather.dewpoint weather;
        Weather.altimeter := Weather.altimeter weather;
        Weather.flight_category := Weather.flight_category weather;
        Weather.raw_metar := Weather.raw_metar weather |}).

Section Handler.

Variable toUpperCase : string -> string.

(** [GET] on the table [MOCK], which it updates in place: the result is the
    response and the table it leaves behind. *)
Definition GET (MOCK : JS.object Weather.t) (airport : option string)
  : JS.M (JS.Outcome Body * JS.object Weather.t) :=
  MOCK' <- JS.mapM touch MOCK ;;
  if negb (JS.falsy airport) then
    let key := toUpperCase (match airport with Some s => s | None => "" end) in
    match JS.get MOCK' key with
    | JS.Undefined =>
        JS.ret (JS.json_status
                  (Error "Weather for specified airport not found" "WEATHER_NOT_FOUND")
                  404,
                MOCK')
    | JS.Own weather => JS.ret (JS.json (One weather), MOCK')
    | JS.Inherited name => JS.ret (JS.json (OneInherited name), MOCK')
    end
  else
    let all := JS.Object_values MOCK' in
    JS.ret (JS.json (All all (Z.of_nat (List.length all))), MOCK').

End Handler.

End WeatherRoute.

(** ** The airports route: GET /api/airports *)

Module AirportsRoute.

Definition MOCK_AIRPORTS : JS.object Airport.t :=
  [ ("KRHV",
     {| Airport.id := "KRHV"; Airport.name := "Reid-Hillview Airport";
        Airport.position := (37.3329, -121.8989); Airport.elevation := 133;
        Airport.runways :=
          [ {| Runway.id := "13L/31R"; Runway.heading := 130;
               Runway.length := 3100; Runway.width := 75;
               Runway.threshold1 := (37.3376, -121.9034);
               Runway.threshold2 := (37.3281, -121.8944);
               Runway.active := true |};
            {| Runway.id := "13R/31L"; Runway.heading := 130;
               Runway.length := 3100; Runway.width := 75;
               Runway.threshold1 := (37.3373, -121.9037);
               Runway.threshold2 := (37.3278, -121.8947);
               Runway.active := false |} ] |});
    ("KPAO",
     {| Airport.id := "KPAO"; Airport.name := "Palo Alto Airport";
        Airport.position := (37.4580, -122.1150); Airport.elevation := 4;
        Airport.runways :=
          [ {| Runway.id := "13/31"; Runway.heading := 130;
               Runway.length := 2443; Runway.width := 60;
               Runway.threshold1 := (37.4617, -122.1184);
               Runway.threshold2 := (37.4543, -122.1116);
               Runway.active := true |} ] |});
    ("KSJC",
     {| Airport.id := "KSJC"; Airport.name := "San Jose International Airport";
        Airport.position := (37.3639, -121.9289); Airport.elevation := 62;
        Airport.runways :=
          [ {| Runway.id := "12L/30R"; Runway.heading := 120;
               Runway.length := 11000; Runway.width := 150;
               Runway.threshold1 := (37.3689, -121.9386);
               Runway.threshold2 := (37.3590, -121.9192);
               Runway.active := true |};
            {| Runway.id := "12R/30L"; Runway.heading := 120;
               Runway.length := 10200; Runway.width := 150;
               Runway.threshold1 := (37.3669, -121.9408);
               Runway.threshold2 := (37.3570, -121.9214);
               Runway.active := false |} ] |}) ]%float.

Inductive Body : Type :=
| One (airport : Airport.t)                        (* { airport } *)
| OneInherited (name : string)                     (* { airport }, a member of Object.prototype *)
| All (airports : list Airport.t) (total : Z)      (* { airports, total } *)
| Error (error : string) (code : string).          (* { error, code } *)

Section Handler.

Variable toUpperCase : string -> string.

(** [GET]; [icao] is [searchParams.get('icao')]. *)
Definition GET (icao : option string) : JS.Outcome Body :=
  if negb (JS.falsy icao) then
    let key := toUpperCase (match icao with Some s => s | None => "" end) in
    match JS.get MOCK_AIRPORTS key with
    | JS.Undefined =>
        JS.json_status (Error "Airport not found" "AIRPORT_NOT_FOUND") 404
    | JS.Own airport => JS.json (One airport)
    | JS.Inherited name => JS.json (OneInherited name)
    end
  else
    let all := JS.Object_values MOCK_AIRPORTS in
    JS.json (All all (Z.of_nat (List.length all))).

End Handler.

End AirportsRoute.

(** ** The two sorted advisory lists *)

(** The comparator both components pass to [sort]: severity, highest
    first, then timestamp, newest first. *)
Definition compareAdvisories (a b : Advisory.t) : Z :=
  if negb (Advisory.severity a =? Advisory.severity b)
  then Advisory.severity b - Advisory.severity a
  else Advisory.timestamp b - Advisory.timestamp a.

Module AdvisoryPanel.

(** The callback of [setInterval]: with one chance in five a new advisory
    goes in front of the list held in the component's state. *)
Definition directions : list string := ["north"; "south"; "east"; "west"].

Definition directions_at (i : Z) : string :=
  if (0 <=? i) && (i <? Z.of_nat (List.length directions))
  then nth (Z.to_nat i) directions "undefined"
  else "undefined".

Definition timer (airportId : string) (advisories : list Advisory.t)
  : JS.M (list Advisory.t) :=
  gate <- JS.Math_random ;;
  if (gate <? 0.2)%float then
    n1 <- JS.Date_now ;;
    n2 <- JS.Date_now ;;
    r1 <- JS.Math_random ;;
    r2 <- JS.Math_random ;;
    r3 <- JS.Math_random ;;
    n3 <- JS.Date_now ;;
    let newAdvisory :=
      {| Advisory.id := "ADV-" ++ airportId ++ "-TRAFFIC-" ++ string_of_Z n1;
         Advisory.timestamp := n2;
         Advisory.message :=
           "NEW TRAFFIC ADVISORY: Aircraft reported " ++
           string_of_Z (JS.Math_floor (r1 * 5)%float + 1) ++ " miles " ++
           directions_at (JS.Math_floor (r2 * 4)%float) ++ " of the field.";
         Advisory.severity := JS.Math_floor (r3 * 3)%float + 2;
         Advisory.category := "TRAFFIC";
         Advisory.expires := n3 + 10 * 60000 |} in
    JS.ret (newAdvisory :: advisories)
  else JS.ret advisories.

Definition sortedAdvisories (advisories : list Advisory.t) : list Advisory.t :=
  JS.Array_sort compareAdvisories advisories.

End AdvisoryPanel.

Module AdvisoriesPage.

(** [filterCategory] is the empty string when no filter is selected. *)
Definition filteredAdvisories (filterCategory : string)
  (advisories : list Advisory.t) : list Advisory.t :=
  if String.eqb filterCategory "" then advisories
  else filter (fun adv => String.eqb (Advisory.category adv) filterCategory)
         advisories.

Definition sortedAdvisories (filterCategory : string)
  (advisories : list Advisory.t) : list Advisory.t :=
  JS.Array_sort compareAdvisories (filteredAdvisories filterCategory advisories).

(** The categories the filter offers:
    [Array.from(new Set(advisories.map(adv => adv.category)))]. *)
Definition categories (advisories : list Advisory.t) : list string :=
  JS.Array_from_Set (map Advisory.category advisories).

(** The airport badge of an advisory: [advisory.id.split('-')[1]], nothing
    when the id has no hyphen. *)
Definition airportCode (advisory : Advisory.t) : option string :=
  nth_error (JS.String_split "-"%char (Advisory.id advisory)) 1.

End AdvisoriesPage.

(** ** TrafficList: the sorted table of aircraft *)

Module TrafficList.

Inductive SortField : Type := callsign | altitude | speed.
Inductive SortDirection : Type := asc | desc.

(** The two pieces of state the column headers act on; the component
    starts with the altitude, descending. *)
Record Sorting : Type := {
  sortField : SortField;
  sortDirection : SortDirection
}.

Definition initialSorting : Sorting :=
  {| sortField := altitude; sortDirection := desc |}.

Definition SortField_eqb (f g : SortField) : bool :=
  match f, g with
  | callsign, callsign | altitude, altitude | speed, speed => true
  | _, _ => false
  end.

(** [handleSortChange]: a click on the header of [field]. *)
Definition handleSortChange (field : SortField) (st : Sorting) : Sorting :=
  if SortField_eqb field (sortField st) then
    {| sortField := sortField st;
       sortDirection := match sortDirection st with asc => desc | desc => asc end |}
  else
    {| sortField := field; sortDirection := desc |}.

(** The callback of the 3-second interval on one aircraft: the altitude
    follows the vertical rate, the speed takes a random step; one draw for
    an aircraft that is not on the ground. *)
Definition update (a : Aircraft.t) : JS.M Aircraft.t :=
  let altitude :=
    if Aircraft.onGround a then 0%float
    else (Aircraft.altitude a + Aircraft.verticalRate a / 60)%float in
  speed <-
    (if Aircraft.onGround a then JS.ret 0%float
     else r <- JS.Math_random ;;
          JS.ret (Aircraft.speed a + (r * 2 - 1))%float) ;;
  JS.ret
    {| Aircraft.id := Aircraft.id a; Aircraft.callsign := Aircraft.callsign a;
       Aircraft.position := Aircraft.position a; Aircraft.altitude := altitude;
       Aircraft.heading := Aircraft.heading a; Aircraft.speed := speed;
       Aircraft.verticalRate := Aircraft.verticalRate a;
       Aircraft.onGround := Aircraft.onGround a;
       Aircraft.type := Aircraft.type a;
       Aircraft.alertLevel := Aircraft.alertLevel a |}.

Definition interval (aircraft : list Aircraft.t) : JS.M (list Aircraft.t) :=
  JS.mapM update aircraft.

(** [alertOrder[a.alertLevel || 'none']]. *)
Definition alertOrder (level : option AlertLevel) : float :=
  match level with
  | Some critical => 3
  | Some warning => 2
  | Some caution => 1
  | Some none | None => 0
  end%float.

Section Sort.

(** [String.prototype.localeCompare], which the language leaves to the
    locale. *)
Variable localeCompare : string -> string -> float.

(** The comparator of [sortedAircraft]. *)
Definition compareAircraft (st : Sorting) (a b : Aircraft.t) : float :=
  let comparison :=
    (alertOrder (Aircraft.alertLevel b) - alertOrder (Aircraft.alertLevel a))%float in
  if negb (comparison =? 0)%float then comparison
  else
    let comparison :=
      match sortField st with
      | callsign => localeCompare (Aircraft.callsign a) (Aircraft.callsign b)
      | altitude => (Aircraft.altitude a - Aircraft.altitude b)%float
      | speed => (Aircraft.speed a - Aircraft.speed b)%float
      end in
    match sortDirection st with
    | asc => comparison
    | desc => (- comparison)%float
    end.

Definition sortedAircraft (st : Sorting) (aircraft : list Aircraft.t)
  : list Aircraft.t :=
  JS.Array_sort_num (compareAircraft st) aircraft.

End Sort.

(** [getAlertClass(alertLevel = 'none')]. *)
Definition getAlertClass (alertLevel : option AlertLevel) : string :=
  match alertLevel with
  | Some critical => "text-safety-red"
  | Some warning => "text-safety-orange"
  | Some caution => "text-safety-yellow"
  | _ => ""
  end.

End TrafficList.

(** ** TrafficMap: the approach paths *)

Module TrafficMap.

Definition MOCK_AIRPORTS : JS.object Airport.t :=
  [ ("KRHV",
     {| Airport.id := "KRHV"; Airport.name := "Reid-Hillview Airport";
        Airport.position := (37.3329, -121.8195); Airport.elevation := 133;
        Airport.runways :=
          [ {| Runway.id := "13L/31R"; Runway.heading := 130;
               Runway.length := 3100; Runway.width := 75;
               Runway.threshold1 := (37.3329, -121.8195);
               Runway.threshold2 := (37.3280, -121.8132);
               Runway.active := true |};
            {| Runway.id := "13R/31L"; Runway.heading := 130;
               Runway.length := 3100; Runway.width := 75;
               Runway.threshold1 := (37.3326, -121.8202);
               Runway.threshold2 := (37.3277, -121.8139);
               Runway.active := false |} ] |});
    ("KPAO",
     {| Airport.id := "KPAO"; Airport.name := "Palo Alto Airport";
        Airport.position := (37.4613, -122.1146); Airport.elevation := 7;
        Airport.runways :=
          [ {| Runway.id := "13/31"; Runway.heading := 134;
               Runway.length := 2500; Runway.width := 70;
               Runway.threshold1 := (37.4613, -122.1146);
               Runway.threshold2 := (37.4575, -122.1098);
               Runway.active := true |} ] |}) ]%float.

(** The [Polyline] drawn for an active runway. *)
Record Polyline : Type := {
  key : string;
  positions : list (float * float);
  color : string;
  weight : Z;
  dashArray : string
}.

(** The loop over the segments of [positions]: the distance from the
    aircraft to the middle of each segment, and the least of them. *)
Fixpoint minDistLoop (a : Aircraft.t) (positions : list (float * float))
  (minDist : float) : float :=
  match positions with
  | start :: ((end_ :: _) as rest) =>
      let dist :=
        PrimFloat.sqrt
          (JS.Math_pow2 (fst (Aircraft.position a) - (fst start + fst end_) / 2) +
           JS.Math_pow2 (snd (Aircraft.position a) - (snd start + snd end_) / 2))%float in
      minDistLoop a rest (JS.Math_min minDist dist)
  | _ => minDist
  end.

(** The predicate of [aircraft.filter] in [renderApproachPaths]. *)
Definition onApproach (approachStart threshold1 : float * float)
  (a : Aircraft.t) : bool :=
  if Aircraft.onGround a then false
  else
    let positions := [approachStart; threshold1] in
    let minDist := minDistLoop a positions PrimFloat.infinity in
    (minDist <? 0.01)%float && (Aircraft.verticalRate a <? 0)%float.

(** [pathColor] from [aircraftOnApproach.length]. *)
Definition pathColor (length : nat) : string :=
  let pathColor := "green" in
  if (length =? 1)%nat then "green"
  else if (length =? 2)%nat then "orange"
  else if (2 <? length)%nat then "red"
  else pathColor.

Section Render.

(** [Math.cos] and [Math.sin], which the language leaves to the
    implementation up to their values at the exact arguments. *)
Variable Math_cos : float -> float.
Variable Math_sin : float -> float.

(** The far end of the approach path of a runway, 5 nm from
    [threshold1] opposite to the runway heading. *)
Definition approachStart (runway : Runway.t) : float * float :=
  let heading := Runway.heading runway in
  let headingRad := ((heading - 180) * JS.Math_PI / 180)%float in
  let lat1 := fst (Runway.threshold1 runway) in
  let lon1 := snd (Runway.threshold1 runway) in
  let latDiff := (Math_cos headingRad * (5 / 60))%float in
  let lonDiff :=
    (Math_sin headingRad * (5 / 60) / Math_cos (lat1 * JS.Math_PI / 180))%float in
  ((lat1 + latDiff)%float, (lon1 + lonDiff)%float).

Definition aircraftOnApproach (runway : Runway.t) (aircraft : list Aircraft.t)
  : list Aircraft.t :=
  filter (onApproach (approachStart runway) (Runway.threshold1 runway)) aircraft.

(** The callback of [airport.runways.map]: nothing for an inactive runway. *)
Definition renderApproachPath (aircraft : list Aircraft.t) (runway : Runway.t)
  : option Polyline :=
  if negb (Runway.active runway) then None
  else
    Some {| key := "approach-" ++ Runway.id runway;
            positions := [approachStart runway; Runway.threshold1 runway];
            color := pathColor (List.length (aircraftOnApproach runway aircraft));
            weight := 2;
            dashArray := "10, 5" |}.

(** [renderApproachPaths] on the component's state. *)
Definition renderApproachPaths (airport : option Airport.t)
  (aircraft : list Aircraft.t) : option (list (option Polyline)) :=
  match airport with
  | None => None
  | Some airport => Some (map (renderApproachPath aircraft) (Airport.runways airport))
  end.

End Render.

(** The callback of the 5-second interval on one aircraft: two draws move
    the position, nothing else changes. *)
Definition move (a : Aircraft.t) : JS.M Aircraft.t :=
  r0 <- JS.Math_random ;;
  r1 <- JS.Math_random ;;
  JS.ret
    {| Aircraft.id := Aircraft.id a; Aircraft.callsign := Aircraft.callsign a;
       Aircraft.position :=
         ((fst (Aircraft.position a) + (r0 * 0.0002 - 0.0001))%float,
          (snd (Aircraft.position a) + (r1 * 0.0002 - 0.0001))%float);
       Aircraft.altitude := Aircraft.altitude a;
       Aircraft.heading := Aircraft.heading a; Aircraft.speed := Aircraft.speed a;
       Aircraft.verticalRate := Aircraft.verticalRate a;
       Aircraft.onGround := Aircraft.onGround a;
       Aircraft.type := Aircraft.type a;
       Aircraft.alertLevel := Aircraft.alertLevel a |}.

Definition interval (aircraft : list Aircraft.t) : JS.M (list Aircraft.t) :=
  JS.mapM move aircraft.

(** The [Polyline] of a runway, with the lines of its popup. *)
Record RunwayLine : Type := {
  runwayKey : string;
  runwayPositions : list (float * float);
  runwayColor : string;
  runwayWeight : Z;
  status : string
}.

Definition renderRunway (runway : Runway.t) : RunwayLine :=
  {| runwayKey := "runway-" ++ Runway.id runway;
     runwayPositions := [Runway.threshold1 runway; Runway.threshold2 runway];
     runwayColor := if Runway.active runway then "yellow" else "white";
     runwayWeight := if Runway.active runway then 8 else 5;
     status := if Runway.active runway then "Active" else "Inactive" |}.

(** [renderRunways] on the component's state. *)
Definition renderRunways (airport : option Airport.t) : option (list RunwayLine) :=
  match airport with
  | None => None
  | Some airport => Some (map renderRunway (Airport.runways airport))
  end.

End TrafficMap.

(** ** Notions the statements below use *)

Module Spec.

(** The distance from the point [p] to the segment from [a] to [b], as the
    specification words it: the distance to the nearest point of the
    segment (the foot of the perpendicular, kept between the two ends). *)
Definition pointToSegmentDistance (p a b : float * float) : float :=
  let dx := (fst b - fst a)%float in
  let dy := (snd b - snd a)%float in
  let len2 := (dx * dx + dy * dy)%float in
  let t0 :=
    if (len2 =? 0)%float then 0%float
    else (((fst p - fst a) * dx + (snd p - snd a) * dy) / len2)%float in
  let t := if (t0 <? 0)%float then 0%float
           else if (1 <? t0)%float then 1%float else t0 in
  let cx := (fst a + t * dx)%float in
  let cy := (snd a + t * dy)%float in
  PrimFloat.sqrt ((fst p - cx) * (fst p - cx) + (snd p - cy) * (snd p - cy))%float.

(** The lateral tolerance, in the unit of the map (degrees). *)
Definition lateralTolerance : float := 0.01%float.

Definition onCorridor (p a b : float * float) : bool :=
  (pointToSegmentDistance p a b <=? lateralTolerance)%float.

(** The order of the two sorted advisory lists: [a] may stand before [b]. *)
Definition mayPrecede (a b : Advisory.t) : Prop :=
  Advisory.severity a > Advisory.severity b \/
  (Advisory.severity a = Advisory.severity b /\
   Advisory.timestamp a >= Advisory.timestamp b).

(** Two advisories tie when the comparator cannot tell them apart. *)
Definition tied (a b : Advisory.t) : bool :=
  (Advisory.severity a =? Advisory.severity b) &&
  (Advisory.timestamp a =? Advisory.timestamp b).


(** A state array with element [i] replaced. *)
Fixpoint update {A : Type} (i : nat) (v : A) (l : list A) : list A :=
  match l, i with
  | [], _ => []
  | _ :: l', O => v :: l'
  | x :: l', S i' => x :: update i' v l'
  end.

(** The value of the ingestion service's [cos] lies in [0.9, 1.0) when the
    clock reads [k] nanoseconds. *)
Definition cosRange (k : nat) : bool :=
  ((0.9 <=? DataIngestion.cos (Z.of_nat k) 0) &&
   (DataIngestion.cos (Z.of_nat k) 0 <? 1))%float.

(** The advisories a table holds for a key: those of the key's own
    property, none when the key names no property, and no list at all when
    the key names a member of [Object.prototype]. *)
Definition stored (MOCK : JS.object (list Advisory.t)) (key : string)
  : option (list Advisory.t) :=
  match JS.get MOCK key with
  | JS.Own l => Some l
  | JS.Undefined => Some []
  | JS.Inherited _ => None
  end.

(** The body of a response, when there is one. *)
Definition bodyOf {B : Type} (o : JS.Outcome B) : option B :=
  match o with
  | JS.Returned r => Some (JS.body r)
  | JS.Thrown _ => None
  end.

Definition statusOf {B : Type} (o : JS.Outcome B) : option Z :=
  match o with
  | JS.Returned r => Some (JS.status r)
  | JS.Thrown _ => None
  end.

(** The elements of a state array [parseAircraftStates] reads. *)
Definition readIndices : list nat := [0; 1; 2; 4; 5; 6; 7; 8; 9; 10; 11; 16]%nat.

(** Whether [v] has the JSON type the parser asserts at index [i]: a string
    for the first three elements, a boolean for the tenth, a number for the
    others. *)
Definition hasAssertedType (i : nat) (v : DataIngestion.jvalue) : bool :=
  match v with
  | DataIngestion.JString _ => (i <? 3)%nat
  | DataIngestion.JBool _ => (i =? 9)%nat
  | DataIngestion.JNumber _ => negb (i <? 3)%nat && negb (i =? 9)%nat
  | _ => false
  end.

(** The line the service logs before it polls an airport. *)
Definition fetchingLine (airport : DataIngestion.AirportBoundary.t) : string :=
  "Fetching data for " ++ DataIngestion.AirportBoundary.ICAO airport ++
  " airport vicinity...".

(** What the aircraft handler keeps of an aircraft [a] in the aircraft
    [a'] it answers: everything but the position and the speed, the altitude
    being moved by one second of the vertical rate. *)
Definition movedFrom (a a' : Aircraft.t) : Prop :=
  Aircraft.id a' = Aircraft.id a /\
  Aircraft.callsign a' = Aircraft.callsign a /\
  Aircraft.heading a' = Aircraft.heading a /\
  Aircraft.verticalRate a' = Aircraft.verticalRate a /\
  Aircraft.onGround a' = Aircraft.onGround a /\
  Aircraft.type a' = Aircraft.type a /\
  Aircraft.alertLevel a' = Aircraft.alertLevel a /\
  Aircraft.altitude a' =
    (if Aircraft.onGround a then 0%float
     else (Aircraft.altitude a + Aircraft.verticalRate a / 60)%float) /\
  (Aircraft.onGround a = true -> Aircraft.speed a' = 0%float).

(** The number of draws the aircraft handler makes for a list: two for
    each aircraft and one more for each that is not on the ground. *)
Fixpoint draws (l : list Aircraft.t) : nat :=
  match l with
  | [] => 0
  | a :: l' => ((if Aircraft.onGround a then 2 else 3) + draws l')%nat
  end.

(** A weather report with its time replaced. *)
Definition retimed (t : Z) (weather : Weather.t) : Weather.t :=
  {| Weather.airport_icao := Weather.airport_icao weather;
     Weather.time := t;
     Weather.wind_direction := Weather.wind_direction weather;
     Weather.wind_speed := Weather.wind_speed weather;
     Weather.wind_gust := Weather.wind_gust weather;
     Weather.visibility := Weather.visibility weather;
     Weather.ceiling := Weather.ceiling weather;
     Weather.temperature := Weather.temperature weather;
     Weather.dewpoint := Weather.dewpoint weather;
     Weather.altimeter := Weather.altimeter weather;
     Weather.flight_category := Weather.flight_category weather;
     Weather.raw_metar := Weather.raw_metar weather |}.

(** A weather table whose entries take the readings [pos], [pos + 1], ...
    of the clock as their times. *)
Fixpoint refreshed (clk : nat -> Z) (pos : nat) (MOCK : JS.object Weather.t)
  : JS.object Weather.t :=
  match MOCK with
  | [] => []
  | (k, weather) :: rest => (k, retimed (clk pos) weather) :: refreshed clk (S pos) rest
  end.

(** A string without hyphen. *)
Fixpoint hyphenFree (s : string) : bool :=
  match s with
  | EmptyString => true
  | String c s' => negb (Ascii.eqb c "-"%char) && hyphenFree s'
  end.

(** [n] ticks of the panel's timer, one after the other. *)
Fixpoint ticks (n : nat) (airportId : string) (advisories : list Advisory.t)
  : JS.M (list Advisory.t) :=
  match n with
  | O => JS.ret advisories
  | S n' =>
      JS.bind (AdvisoryPanel.timer airportId advisories)
        (fun advisories' => ticks n' airportId advisories')
  end.

(** The rank of an alert level in the table of aircraft: critical above
    warning above caution above none. *)
Definition alertRank (a : Aircraft.t) : Z :=
  match Aircraft.alertLevel a with
  | Some critical => 3
  | Some warning => 2
  | Some caution => 1
  | Some none | None => 0
  end.

Definition alertNotBelow (a b : Aircraft.t) : Prop := alertRank a >= alertRank b.

(** An aircraft that can be on an approach path: not on the ground and
    descending. *)
Definition descendingAirborne (a : Aircraft.t) : bool :=
  negb (Aircraft.onGround a) && (Aircraft.verticalRate a <? 0)%float.

(** What a refresh of the map keeps of an aircraft: all but the position. *)
Definition sameButPosition (a a' : Aircraft.t) : Prop :=
  Aircraft.id a' = Aircraft.id a /\
  Aircraft.callsign a' = Aircraft.callsign a /\
  Aircraft.altitude a' = Aircraft.altitude a /\
  Aircraft.heading a' = Aircraft.heading a /\
  Aircraft.speed a' = Aircraft.speed a /\
  Aircraft.verticalRate a' = Aircraft.verticalRate a /\
  Aircraft.onGround a' = Aircraft.onGround a /\
  Aircraft.type a' = Aircraft.type a /\
  Aircraft.alertLevel a' = Aircraft.alertLevel a.

End Spec.

(** ** Concrete inputs *)

Module Inputs.

Import DataIngestion.

(** A well-formed record of the feed: 17 elements, the id first and the
    time of last contact fifth. *)
Definition record (icao24 : jvalue) (lastContact : float) : list jvalue :=
  [icao24; JString "N12345"; JString "United States"; JNull;
   JNumber lastContact; JNull; JNumber 37.33; JNumber (-121.82); JNumber 450;
   JBool false; JNumber 45; JNumber 130; JNull; JNull; JNull; JNull;
   JNumber (-2.5)]%float.

(** Scenario C: a batch of five records, the third without id. *)
Definition scenarioC : OpenSkyResponse :=
  {| Time := 1700000000;
     States := [ record (JString "a1") 1699999990; record (JString "a2") 1699999991;
                 record JNull 1699999992; record (JString "a4") 1699999993;
                 record (JString "a5") 1699999994 ]%float |}.

(** A sample of aircraft abc123 and an older sample of the same aircraft. *)
Definition fresh : list jvalue := record (JString "abc123") 1699999990%float.
Definition stale : list jvalue := record (JString "abc123") 1699999900%float.

(** A record whose optional readings are all absent. *)
Definition silent : list jvalue :=
  [JString "abc123"; JString "N12345"; JString "United States"; JNull;
   JNull; JNull; JNull; JNull; JNull;
   JBool false; JNull; JNull; JNull; JNull; JNull; JNull; JNull].

(** A world whose clock always reads [t] and whose draws are all [r]. *)
Definition steady (t : Z) (r : float) : JS.World :=
  JS.world (fun _ => t) (fun _ => r).

(** The advisories table of a module loaded at instant 0. *)
Definition table0 : JS.object (list Advisory.t) :=
  fst (AdvisoriesRoute.MOCK_ADVISORIES (steady 0 0.5%float)).

(** The one advisory that table holds for KPAO; it expires at 3600000. *)
Definition kpaoWeather : Advisory.t :=
  {| Advisory.id := "ADV-KPAO-WEATHER-1";
     Advisory.timestamp := -2700000;
     Advisory.message :=
       "Weather conditions VFR. Ceiling unlimited, visibility 10 miles. Wind 290° at 8 knots.";
     Advisory.severity := 1;
     Advisory.category := "WEATHER";
     Advisory.expires := 3600000 |}.

(** The advisory the route generates for KPAO at instant 1000 from draws
    that are all 0.0625. *)
Definition generated : Advisory.t :=
  {| Advisory.id := "ADV-KPAO-TRAFFIC-1000";
     Advisory.timestamp := 1000;
     Advisory.message := "NEW TRAFFIC ADVISORY: Generated for demonstration purposes.";
     Advisory.severity := 2;
     Advisory.category := "TRAFFIC";
     Advisory.expires := 601000 |}.

(** The advisory the panel's timer generates for KPAO at instant 1000 from
    draws that are all 0.0625. *)
Definition reported : Advisory.t :=
  {| Advisory.id := "ADV-KPAO-TRAFFIC-1000";
     Advisory.timestamp := 1000;
     Advisory.message :=
       "NEW TRAFFIC ADVISORY: Aircraft reported 1 miles north of the field.";
     Advisory.severity := 2;
     Advisory.category := "TRAFFIC";
     Advisory.expires := 601000 |}.

(** The weather table of a module loaded at instant 0. *)
Definition weather0 : JS.object Weather.t :=
  fst (WeatherRoute.MOCK_WEATHER (steady 0 0.5%float)).

(** Two advisories that tie on severity and timestamp. *)
Definition advB : Advisory.t :=
  {| Advisory.id := "ADV-B"; Advisory.timestamp := 1000;
     Advisory.message := "second"; Advisory.severity := 3;
     Advisory.category := "TRAFFIC"; Advisory.expires := 601000 |}.

Definition advA : Advisory.t :=
  {| Advisory.id := "ADV-A"; Advisory.timestamp := 1000;
     Advisory.message := "first"; Advisory.severity := 3;
     Advisory.category := "TRAFFIC"; Advisory.expires := 601000 |}.

(** A runway heading due south with its threshold at the origin of the
    map, and two descending aircraft on its approach path: one over the
    threshold, one a mile out on the centre line. *)
Definition runway18 : Runway.t :=
  {| Runway.id := "18/36"; Runway.heading := 180; Runway.length := 3000;
     Runway.width := 75; Runway.threshold1 := (0, 0);
     Runway.threshold2 := (-0.008, 0); Runway.active := true |}%float.

Definition airport18 : Airport.t :=
  {| Airport.id := "KTST"; Airport.name := "Test Field";
     Airport.position := (0, 0); Airport.elevation := 0;
     Airport.runways := [runway18] |}%float.

Definition descending (id : string) (position : float * float) : Aircraft.t :=
  {| Aircraft.id := id; Aircraft.callsign := id; Aircraft.position := position;
     Aircraft.altitude := 500; Aircraft.heading := 180; Aircraft.speed := 70;
     Aircraft.verticalRate := -500; Aircraft.onGround := false;
     Aircraft.type := "C172"; Aircraft.alertLevel := Some none |}%float.

Definition overThreshold : Aircraft.t := descending "t1" (0, 0)%float.
Definition onFinal : Aircraft.t := descending "t2" (1 / 60, 0)%float.

(** Any cosine and sine with the exact values at 0. *)
Definition cos0 (x : float) : float := 1%float.
Definition sin0 (x : float) : float := 0%float.

(** The sample [fresh] with a geometric altitude at index 13, which the
    parser does not read. *)
Definition freshWithGeoAltitude : list jvalue :=
  Spec.update 13 (JNumber 3000%float) fresh.

(** The two airports of the service's table. *)
Definition reidHillview : AirportBoundary.t :=
  {| AirportBoundary.ICAO := "KRHV"; AirportBoundary.Name := "Reid-Hillview";
     AirportBoundary.Latitude := 37.3329; AirportBoundary.Longitude := -121.8195;
     AirportBoundary.Radius := 10 |}%float.

Definition paloAlto : AirportBoundary.t :=
  {| AirportBoundary.ICAO := "KPAO"; AirportBoundary.Name := "Palo Alto";
     AirportBoundary.Latitude := 37.4613; AirportBoundary.Longitude := -122.1146;
     AirportBoundary.Radius := 10 |}%float.

(** A network whose every request fails with an error that names the URL
    requested, as the errors of [client.Do] do, under the clock [nano]. *)
Definition echoing (nano : nat -> Z) : Env :=
  {| Nanosecond := nano; Do := fun url => DoError url |}.

(** A network that is down. *)
Definition offline : Env :=
  {| Nanosecond := fun _ => 0; Do := fun _ => DoError "dial tcp: i/o timeout" |}.

(** A comparison of callsigns by their lengths. *)
Definition byLength (s t : string) : float :=
  (PrimFloat.of_uint63 (Uint63.of_Z (Z.of_nat (String.length s))) -
   PrimFloat.of_uint63 (Uint63.of_Z (Z.of_nat (String.length t))))%float.

(** An aircraft taxiing and one climbing out. *)
Definition taxiing : Aircraft.t :=
  {| Aircraft.id := "g1"; Aircraft.callsign := "N11111"; Aircraft.position := (0, 0);
     Aircraft.altitude := 0; Aircraft.heading := 180; Aircraft.speed := 10;
     Aircraft.verticalRate := -100; Aircraft.onGround := true;
     Aircraft.type := "C172"; Aircraft.alertLevel := Some critical |}%float.

Definition climbing : Aircraft.t :=
  {| Aircraft.id := "c1"; Aircraft.callsign := "N22222"; Aircraft.position := (1 / 24, 0);
     Aircraft.altitude := 900; Aircraft.heading := 0; Aircraft.speed := 80;
     Aircraft.verticalRate := 500; Aircraft.onGround := false;
     Aircraft.type := "PA28"; Aircraft.alertLevel := Some warning |}%float.

(** The approach path of runway 18 with fewer than two aircraft on it. *)
Definition greenPath18 : TrafficMap.Polyline :=
  {| TrafficMap.key := "approach-18/36";
     TrafficMap.positions := [(5 / 60, 0); (0, 0)]%float;
     TrafficMap.color := "green";
     TrafficMap.weight := 2;
     TrafficMap.dashArray := "10, 5" |}.

End Inputs.

(** * Properties *)

(** ** The ingestion service *)

Section IngestionFacts.

Import DataIngestion Inputs.

Lemma parse_fold_app : forall now icao l acc,
  fold_left (parseStep now icao) l acc =
  (acc ++ fold_left (parseStep now icao) l [])%list.
Proof.
  intros now icao l. induction l as [| r l IH]; intros acc; simpl.
  - now rewrite app_nil_r.
  - rewrite IH. rewrite (IH (parseStep now icao [] r)).
    unfold parseStep. destruct (List.length r <? 17)%nat; simpl.
    + reflexivity.
    + now rewrite <- app_assoc.
Qed.

Lemma parse_cons : forall now icao r l,
  parseAircraftStates {| Time := now; States := r :: l |} icao =
  ((if (List.length r <? 17)%nat then [] else [stateOf now icao r]) ++
   parseAircraftStates {| Time := now; States := l |} icao)%list.
Proof.
  intros. unfold parseAircraftStates. simpl.
  rewrite parse_fold_app. unfold parseStep.
  destruct (List.length r <? 17)%nat; reflexivity.
Qed.

Lemma parse_app : forall now icao l1 l2,
  parseAircraftStates {| Time := now; States := l1 ++ l2 |} icao =
  (parseAircraftStates {| Time := now; States := l1 |} icao ++
   parseAircraftStates {| Time := now; States := l2 |} icao)%list.
Proof.
  intros now icao l1 l2. induction l1 as [| r l1 IH].
  - reflexivity.
  - simpl app. rewrite !parse_cons, IH. now rewrite app_assoc.
Qed.

Lemma long_array : forall r : list jvalue,
  (17 <= List.length r)%nat -> (List.length r <? 17)%nat = false.
Proof. intros r H. apply Nat.ltb_ge. exact H. Qed.

(** C7, as the code has it: in a batch, a state array of fewer than 17
    elements contributes nothing and every other array contributes exactly
    one state, whether or not its id is present; the records before and
    after are handled as if it were not there, and the parser is defined on
    every batch. *)
Theorem parse_skips_short_arrays_only : forall now icao before r after,
  parseAircraftStates {| Time := now; States := before ++ r :: after |} icao =
  (parseAircraftStates {| Time := now; States := before |} icao ++
   (if (List.length r <? 17)%nat then [] else [stateOf now icao r]) ++
   parseAircraftStates {| Time := now; States := after |} icao)%list.
Proof.
  intros. rewrite parse_app, parse_cons. reflexivity.
Qed.

(** C7 fails as stated: the record without id is not skipped; the batch
    of Scenario C gives five states, one of them with an empty id. *)
Lemma scenarioC_keeps_record_without_id :
  List.length (parseAircraftStates scenarioC "KRHV") = 5%nat /\
  map Icao24 (parseAircraftStates scenarioC "KRHV") = ["a1"; "a2"; ""; "a4"; "a5"].
Proof. split; vm_compute; reflexivity. Qed.

(** C6, as the code has it: the parser keeps no table keyed by id and
    compares no timestamps.  A record of at least 17 elements that follows
    a batch adds its state at the end of the states of the batch, whatever
    its id and its time of last contact, be they those of a state already
    there. *)
Theorem parse_appends_without_merge : forall now icao batch r,
  (17 <= List.length r)%nat ->
  parseAircraftStates {| Time := now; States := batch ++ [r] |} icao =
  (parseAircraftStates {| Time := now; States := batch |} icao ++
   [stateOf now icao r])%list.
Proof.
  intros now icao batch r Hr.
  rewrite parse_app, parse_cons, (long_array r Hr). reflexivity.
Qed.

Lemma parse_appends_without_merge_witness :
  (17 <= List.length stale)%nat /\
  parseAircraftStates {| Time := 1700000000; States := [fresh] ++ [stale] |} "KRHV" =
  (parseAircraftStates {| Time := 1700000000; States := [fresh] |} "KRHV" ++
   [stateOf 1700000000 "KRHV" stale])%list.
Proof.
  split.
  - simpl. lia.
  - apply (parse_appends_without_merge 1700000000 "KRHV" [fresh] stale).
    simpl. lia.
Defined.

(** C6 fails as stated: a sample of an aircraft already among the states,
    with an older time of last contact, changes the states (it is appended,
    not discarded). *)
Lemma stale_sample_is_appended :
  let before := parseAircraftStates {| Time := 1700000000; States := [fresh] |} "KRHV" in
  let after := parseAircraftStates {| Time := 1700000000; States := [fresh; stale] |} "KRHV" in
  map Icao24 before = ["abc123"] /\
  map LastContact before = [1699999990] /\
  map Icao24 after = ["abc123"; "abc123"] /\
  map LastContact after = [1699999990; 1699999900] /\
  after <> before.
Proof.
  cbv zeta. repeat split; try (vm_compute; reflexivity).
  intro H. apply (f_equal (@List.length AircraftState)) in H.
  vm_compute in H. discriminate H.
Qed.

(** The state arrays of at least 17 elements, spelled out. *)
Lemma long_array_inv : forall r : list jvalue,
  (17 <= List.length r)%nat ->
  exists a0 a1 a2 a3 a4 a5 a6 a7 a8 a9 a10 a11 a12 a13 a14 a15 a16 rest,
    r = a0 :: a1 :: a2 :: a3 :: a4 :: a5 :: a6 :: a7 :: a8 :: a9 :: a10 ::
        a11 :: a12 :: a13 :: a14 :: a15 :: a16 :: rest.
Proof.
  intros r H.
  do 17 (destruct r as [| ? r]; [simpl in H; lia |]).
  repeat eexists.
Qed.

(** C8: a state array of the feed (17 elements or more) whose latitude,
    longitude, altitude, velocity, heading or vertical rate is null gives a
    state where that field is 0, the very state the array gives with the
    number 0 in place of the null; so do the two times, of last contact and
    of position. *)
Theorem absent_fields_are_zero : forall now icao r,
  (17 <= List.length r)%nat ->
  let s := stateOf now icao r in
  parseAircraftStates {| Time := now; States := [r] |} icao = [s] /\
  (index r 6 = JNull ->
   Latitude s = 0%float /\ stateOf now icao (Spec.update 6 (JNumber 0) r) = s) /\
  (index r 7 = JNull ->
   Longitude s = 0%float /\ stateOf now icao (Spec.update 7 (JNumber 0) r) = s) /\
  (index r 8 = JNull ->
   Altitude s = 0%float /\ stateOf now icao (Spec.update 8 (JNumber 0) r) = s) /\
  (index r 10 = JNull ->
   Velocity s = 0%float /\ stateOf now icao (Spec.update 10 (JNumber 0) r) = s) /\
  (index r 11 = JNull ->
   Heading s = 0%float /\ stateOf now icao (Spec.update 11 (JNumber 0) r) = s) /\
  (index r 16 = JNull ->
   VerticalRate s = 0%float /\ stateOf now icao (Spec.update 16 (JNumber 0) r) = s) /\
  (index r 4 = JNull ->
   LastContact s = 0 /\ stateOf now icao (Spec.update 4 (JNumber 0) r) = s) /\
  (index r 5 = JNull ->
   TimePosition s = 0 /\ stateOf now icao (Spec.update 5 (JNumber 0) r) = s).
Proof.
  intros now icao r Hr s.
  split.
  - rewrite parse_cons, (long_array r Hr). reflexivity.
  - destruct (long_array_inv r Hr) as
      (a0 & a1 & a2 & a3 & a4 & a5 & a6 & a7 & a8 & a9 & a10 & a11 & a12 &
       a13 & a14 & a15 & a16 & rest & ->).
    subst s. unfold stateOf, index. simpl nth. simpl Spec.update.
    repeat match goal with |- _ /\ _ => split end;
      intros ->; split; reflexivity.
Qed.

Lemma absent_fields_are_zero_witness :
  let s := stateOf 1700000000 "KRHV" silent in
  (17 <= List.length silent)%nat /\
  parseAircraftStates {| Time := 1700000000; States := [silent] |} "KRHV" = [s] /\
  Latitude s = 0%float /\ Longitude s = 0%float /\ Altitude s = 0%float /\
  Velocity s = 0%float /\ Heading s = 0%float /\ VerticalRate s = 0%float /\
  LastContact s = 0 /\ TimePosition s = 0.
Proof.
  assert (H : (17 <= List.length silent)%nat) by (simpl; lia).
  pose proof (absent_fields_are_zero 1700000000 "KRHV" silent H) as
    (Hp & H6 & H7 & H8 & H10 & H11 & H16 & H4 & H5).
  exact (conj H (conj Hp
           (conj (proj1 (H6 eq_refl))
              (conj (proj1 (H7 eq_refl))
                 (conj (proj1 (H8 eq_refl))
                    (conj (proj1 (H10 eq_refl))
                       (conj (proj1 (H11 eq_refl))
                          (conj (proj1 (H16 eq_refl))
                             (conj (proj1 (H4 eq_refl)) (proj1 (H5 eq_refl))))))))))).
Defined.

Lemma cosRange_all : forallb Spec.cosRange (seq 0 (Z.to_nat 10000)) = true.
Proof. vm_compute. reflexivity. Qed.

Lemma cos_rem : forall ns r, cos ns r = cos (Z.rem ns 10000) 0.
Proof.
  intros ns r. unfold cos.
  rewrite (Z.rem_rem ns 10000) by lia. reflexivity.
Qed.

Lemma cos_in_range : forall ns r,
  0 <= ns ->
  (0.9 <=? cos ns r)%float = true /\ (cos ns r <? 1)%float = true.
Proof.
  intros ns r Hns. rewrite cos_rem.
  assert (Hk : 0 <= Z.rem ns 10000 < 10000) by (apply Z.rem_bound_pos; lia).
  set (k := Z.rem ns 10000) in *.
  assert (Hin : In (Z.to_nat k) (seq 0 (Z.to_nat 10000))) by (apply in_seq; lia).
  pose proof (proj1 (forallb_forall Spec.cosRange (seq 0 (Z.to_nat 10000)))
                cosRange_all _ Hin) as H.
  unfold Spec.cosRange in H. rewrite Z2Nat.id in H by lia.
  apply andb_true_iff in H. exact H.
Qed.

(** C9: [cos] ignores its argument; for every reading of the nanosecond
    clock (0 to 999999999) its value lies in [0.9, 1.0), so that it is not
    the cosine (whose value at 0 is 1); and two readings of the clock give,
    for each airport of the table, two different bounding boxes (the
    longitudes differ) and two different query URLs.  So it is with
    [processAircraftData]: the URL a tick requests for an airport is that of
    the box computed from the reading of the clock the tick makes for it
    (the tick consults the network at these URLs and no other), and two
    ticks over the same airports and the same network, one reading 0 and the
    other 5000, request different URLs and log different lines. *)
Theorem cos_is_a_clock_stub : forall ns r1 r2,
  0 <= ns <= 999999999 ->
  cos ns r1 = cos ns r2 /\
  (0.9 <=? cos ns r1)%float = true /\
  (cos ns r1 <? 1)%float = true /\
  cos ns 0 <> 1%float /\
  (forall airport, In airport airports ->
     minLon (boundingBox 0 airport) <> minLon (boundingBox 5000 airport) /\
     maxLon (boundingBox 0 airport) <> maxLon (boundingBox 5000 airport) /\
     requestURL (boundingBox 0 airport) <> requestURL (boundingBox 5000 airport)) /\
  airports = [reidHillview; paloAlto] /\
  (forall nano : nat -> Z,
     processAircraftData (echoing nano) =
     [ Spec.fetchingLine reidHillview;
       "Error fetching data: " ++ requestURL (boundingBox (nano 0%nat) reidHillview);
       Spec.fetchingLine paloAlto;
       "Error fetching data: " ++ requestURL (boundingBox (nano 1%nat) paloAlto) ]) /\
  (forall (nano : nat -> Z) (do1 do2 : string -> httpResult),
     do1 (requestURL (boundingBox (nano 0%nat) reidHillview)) =
     do2 (requestURL (boundingBox (nano 0%nat) reidHillview)) ->
     do1 (requestURL (boundingBox (nano 1%nat) paloAlto)) =
     do2 (requestURL (boundingBox (nano 1%nat) paloAlto)) ->
     processAircraftData {| Nanosecond := nano; Do := do1 |} =
     processAircraftData {| Nanosecond := nano; Do := do2 |}) /\
  processAircraftData (echoing (fun _ => 0)) <>
  processAircraftData (echoing (fun _ => 5000)).
Proof.
  intros ns r1 r2 [Hns _].
  destruct (cos_in_range ns r1 Hns) as [Hlo Hhi].
  repeat match goal with |- _ /\ _ => split end.
  - reflexivity.
  - exact Hlo.
  - exact Hhi.
  - intro H. destruct (cos_in_range ns 0 Hns) as [_ Hlt].
    rewrite H in Hlt. vm_compute in Hlt. discriminate Hlt.
  - intros airport Hin.
    assert (Hcases : airport = nth 0 airports airport \/
                     airport = nth 1 airports airport).
    { simpl in Hin. destruct Hin as [<- | [<- | []]]; [left | right]; reflexivity. }
    destruct Hcases as [-> | ->]; simpl nth;
      repeat match goal with |- _ /\ _ => split end;
      intro H; vm_compute in H; discriminate H.
  - reflexivity.
  - intro nano. reflexivity.
  - intros nano do1 do2 H0 H1.
    unfold processAircraftData.
    change airports with [reidHillview; paloAlto].
    cbn [processAirports]. unfold processAirport. cbn [Nanosecond Do].
    rewrite H0, H1. reflexivity.
  - intro H. vm_compute in H. discriminate H.
Qed.

Lemma cos_is_a_clock_stub_witness :
  0 <= 123456789 <= 999999999 /\
  cos 123456789 0 = cos 123456789 1.5 /\
  (0.9 <=? cos 123456789 0)%float = true /\
  (cos 123456789 0 <? 1)%float = true /\
  processAircraftData (echoing (fun _ => 0)) <>
  processAircraftData (echoing (fun _ => 5000)).
Proof.
  assert (H : 0 <= 123456789 <= 999999999) by lia.
  pose proof (cos_is_a_clock_stub 123456789 0 1.5 H)
    as (H1 & H2 & H3 & _ & _ & _ & _ & _ & H9).
  exact (conj H (conj H1 (conj H2 (conj H3 H9)))).
Defined.

End IngestionFacts.

(** ** The sorted advisory lists *)

Section SortFacts.

Import Inputs.

Lemma compare_nonpos_iff : forall a b,
  compareAdvisories a b <= 0 <-> Spec.mayPrecede a b.
Proof.
  intros a b. unfold compareAdvisories, Spec.mayPrecede.
  destruct (Z.eqb_spec (Advisory.severity a) (Advisory.severity b)); simpl; lia.
Qed.

Lemma compare_zero_iff : forall a b,
  compareAdvisories a b = 0 <-> Spec.tied a b = true.
Proof.
  intros a b. unfold compareAdvisories, Spec.tied.
  destruct (Z.eqb_spec (Advisory.severity a) (Advisory.severity b)); simpl.
  - rewrite Z.eqb_eq. lia.
  - split; [lia | discriminate].
Qed.

Lemma mayPrecede_total : forall a b, Spec.mayPrecede a b \/ Spec.mayPrecede b a.
Proof. intros a b. unfold Spec.mayPrecede. lia. Qed.

Lemma mayPrecede_trans : forall a b c,
  Spec.mayPrecede a b -> Spec.mayPrecede b c -> Spec.mayPrecede a c.
Proof. intros a b c. unfold Spec.mayPrecede. lia. Qed.

Lemma tied_trans_neg : forall k x y,
  Spec.tied k x = true -> Spec.tied k y = true -> compareAdvisories y x = 0.
Proof.
  intros k x y Hx Hy. apply compare_zero_iff.
  unfold Spec.tied in *.
  apply andb_true_iff in Hx, Hy. apply andb_true_iff.
  rewrite !Z.eqb_eq in *. lia.
Qed.

Lemma sort_insert_perm : forall x l,
  Permutation (JS.sort_insert compareAdvisories x l) (x :: l).
Proof.
  intros x l. induction l as [| y l IH]; simpl.
  - apply Permutation_refl.
  - destruct (compareAdvisories y x <? 0).
    + apply perm_trans with (y :: x :: l).
      * apply perm_skip. exact IH.
      * apply perm_swap.
    + apply Permutation_refl.
Qed.

Lemma Array_sort_perm : forall l,
  Permutation (JS.Array_sort compareAdvisories l) l.
Proof.
  induction l as [| x l IH]; simpl.
  - apply perm_nil.
  - apply perm_trans with (x :: JS.Array_sort compareAdvisories l).
    + apply sort_insert_perm.
    + apply perm_skip. exact IH.
Qed.

Lemma sort_insert_Forall : forall (P : Advisory.t -> Prop) x l,
  P x -> Forall P l -> Forall P (JS.sort_insert compareAdvisories x l).
Proof.
  intros P x l Hx Hl. induction Hl as [| y l Hy Hl IH]; simpl.
  - constructor; [exact Hx | constructor].
  - destruct (compareAdvisories y x <? 0).
    + constructor; assumption.
    + constructor; [exact Hx |]. constructor; assumption.
Qed.

Lemma sort_insert_sorted : forall x l,
  StronglySorted Spec.mayPrecede l ->
  StronglySorted Spec.mayPrecede (JS.sort_insert compareAdvisories x l).
Proof.
  intros x l Hs. induction Hs as [| y l Hs IH Hall]; simpl.
  - constructor; constructor.
  - destruct (Z.ltb_spec (compareAdvisories y x) 0) as [Hlt | Hge].
    + constructor.
      * exact IH.
      * apply sort_insert_Forall; [| exact Hall].
        apply compare_nonpos_iff. lia.
    + assert (Hxy : Spec.mayPrecede x y).
      { destruct (mayPrecede_total x y) as [H | H]; [exact H |].
        apply compare_nonpos_iff in H.
        assert (H0 : compareAdvisories y x = 0) by lia.
        apply compare_zero_iff in H0.
        unfold Spec.tied in H0. apply andb_true_iff in H0.
        rewrite !Z.eqb_eq in H0. unfold Spec.mayPrecede. lia. }
      constructor.
      * constructor; assumption.
      * constructor; [exact Hxy |].
        eapply Forall_impl; [| exact Hall].
        intros z Hz. eapply mayPrecede_trans; eassumption.
Qed.

Lemma Array_sort_sorted : forall l,
  StronglySorted Spec.mayPrecede (JS.Array_sort compareAdvisories l).
Proof.
  induction l as [| x l IH]; simpl.
  - constructor.
  - apply sort_insert_sorted. exact IH.
Qed.

Lemma sort_insert_stable : forall k x l,
  filter (Spec.tied k) (JS.sort_insert compareAdvisories x l) =
  filter (Spec.tied k) (x :: l).
Proof.
  intros k x l. induction l as [| y l IH].
  - reflexivity.
  - simpl JS.sort_insert.
    destruct (Z.ltb_spec (compareAdvisories y x) 0) as [Hlt | Hge]; [| reflexivity].
    simpl filter in *. rewrite IH.
    destruct (Spec.tied k x) eqn:Hx; [| reflexivity].
    destruct (Spec.tied k y) eqn:Hy; [| reflexivity].
    pose proof (tied_trans_neg k x y Hx Hy). lia.
Qed.

Lemma Array_sort_stable : forall k l,
  filter (Spec.tied k) (JS.Array_sort compareAdvisories l) =
  filter (Spec.tied k) l.
Proof.
  intros k l. induction l as [| x l IH].
  - reflexivity.
  - simpl JS.Array_sort. rewrite sort_insert_stable.
    simpl. rewrite IH. reflexivity.
Qed.

(** C5, as the code has it: each of the two sorted lists is its input
    (for the page, the input after the category filter) rearranged by
    severity, highest first, then by timestamp, newest first; advisories
    that tie on both stay in the order of the input. *)
Theorem sortedAdvisories_is_a_stable_sort : forall advisories filterCategory,
  let panel := AdvisoryPanel.sortedAdvisories advisories in
  let shown := AdvisoriesPage.filteredAdvisories filterCategory advisories in
  let page := AdvisoriesPage.sortedAdvisories filterCategory advisories in
  (Permutation panel advisories /\
   StronglySorted Spec.mayPrecede panel /\
   forall k, filter (Spec.tied k) panel = filter (Spec.tied k) advisories) /\
  (Permutation page shown /\
   StronglySorted Spec.mayPrecede page /\
   forall k, filter (Spec.tied k) page = filter (Spec.tied k) shown).
Proof.
  intros advisories filterCategory. cbv zeta.
  unfold AdvisoryPanel.sortedAdvisories, AdvisoriesPage.sortedAdvisories.
  split; (split; [apply Array_sort_perm |
                  split; [apply Array_sort_sorted | intro k; apply Array_sort_stable]]).
Qed.

(** C5 fails as stated: two advisories that tie on severity and timestamp
    come out in the order they came in, the id "ADV-B" before "ADV-A" in
    one case, so that the same set of advisories gives two orders. *)
Lemma ties_keep_the_input_order :
  Spec.tied advB advA = true /\
  AdvisoryPanel.sortedAdvisories [advB; advA] = [advB; advA] /\
  AdvisoryPanel.sortedAdvisories [advA; advB] = [advA; advB] /\
  AdvisoriesPage.sortedAdvisories "" [advB; advA] = [advB; advA] /\
  AdvisoriesPage.sortedAdvisories "" [advA; advB] = [advA; advB] /\
  map Advisory.id (AdvisoryPanel.sortedAdvisories [advB; advA]) = ["ADV-B"; "ADV-A"].
Proof. repeat split; vm_compute; reflexivity. Qed.

End SortFacts.

(** ** The four route handlers and the panel's timer *)

Section RouteFacts.

Import Inputs AdvisoriesRoute.

Lemma falsy_nonempty : forall s : string, s <> "" -> JS.falsy (Some s) = false.
Proof. intros s Hs. simpl. apply String.eqb_neq. exact Hs. Qed.

Lemma newAdvisory_expires : forall key w,
  Advisory.expires (fst (newAdvisory key w)) = JS.clock w (2 + JS.clock_pos w) + 10 * 60000.
Proof. intros. reflexivity. Qed.

(** What [GET] answers for an airport whose key names no member of
    [Object.prototype]: the unexpired stored advisories, and after them the
    generated advisory when the gate draw is below 0.1. *)
Lemma GET_airport : forall MOCK airportId l w,
  airportId <> "" ->
  Spec.stored MOCK airportId = Some l ->
  let now := JS.clock w (JS.clock_pos w) in
  let gate := JS.random w (JS.random_pos w) in
  exists extra : list Advisory.t,
    fst (GET MOCK (Some airportId) w) =
    JS.json {| advisories := (activeAdvisories l now ++ extra)%list;
               total := Z.of_nat (List.length (activeAdvisories l now ++ extra)%list);
               airport := Some airportId |} /\
    ((gate <? 0.1)%float = false -> extra = []) /\
    ((gate <? 0.1)%float = true ->
     exists adv, extra = [adv] /\
       Advisory.expires adv = JS.clock w (3 + JS.clock_pos w) + 10 * 60000).
Proof.
  intros MOCK airportId l w Hne Hst now gate.
  unfold GET. rewrite (falsy_nonempty airportId Hne).
  unfold Spec.stored in Hst.
  set (w2 := {| JS.clock := JS.clock w; JS.clock_pos := S (JS.clock_pos w);
                JS.random := JS.random w; JS.random_pos := S (JS.random_pos w) |}).
  exists (if (gate <? 0.1)%float then [fst (newAdvisory airportId w2)] else []).
  split; [| split].
  - unfold JS.bind at 1. unfold JS.Date_now at 1. cbv iota beta. fold now.
    destruct (JS.get MOCK airportId) as [l' | name |] eqn:Hget; try discriminate;
      injection Hst as <-;
      unfold JS.bind at 1; unfold JS.Math_random at 1; cbv iota beta;
      cbn [JS.clock JS.clock_pos JS.random JS.random_pos]; fold gate; fold w2;
      (destruct (gate <? 0.1)%float;
       [ unfold JS.bind; destruct (newAdvisory airportId w2) as [adv w3]; reflexivity
       | unfold JS.bind, JS.ret; simpl; rewrite ?app_nil_r; reflexivity ]).
  - intros ->. reflexivity.
  - intros ->. eexists. split; [reflexivity |].
    rewrite newAdvisory_expires. reflexivity.
Qed.

Lemma GET_no_airport : forall MOCK airportId w,
  JS.falsy airportId = true ->
  GET MOCK airportId w =
  (JS.json {| advisories := List.concat (JS.Object_values MOCK);
              total := Z.of_nat (List.length (List.concat (JS.Object_values MOCK)));
              airport := None |}, w).
Proof. intros MOCK airportId w H. unfold GET. rewrite H. reflexivity. Qed.

Lemma GET_inherited : forall MOCK airportId name w,
  airportId <> "" ->
  JS.get MOCK airportId = JS.Inherited name ->
  fst (GET MOCK (Some airportId) w) =
  JS.Thrown "TypeError: advisories.filter is not a function".
Proof.
  intros MOCK airportId name w Hne Hget.
  unfold GET. rewrite (falsy_nonempty airportId Hne), Hget. reflexivity.
Qed.

(** C3, as the code has it: in the answer to a query for an airport, an
    advisory the table holds for that airport is present exactly when the
    instant of the query is strictly before its expiry: it is left out at
    the instant of expiry and at every later one.  (The clock is taken not
    to run backwards during the request.) *)
Theorem expiry_filter_at_airport : forall MOCK airportId l adv w,
  airportId <> "" ->
  JS.get MOCK airportId = JS.Own l ->
  In adv l ->
  JS.clock w (JS.clock_pos w) <= JS.clock w (3 + JS.clock_pos w) ->
  exists b,
    fst (GET MOCK (Some airportId) w) = JS.json b /\
    (In adv (advisories b) <-> JS.clock w (JS.clock_pos w) < Advisory.expires adv).
Proof.
  intros MOCK airportId l adv w Hne Hget Hin Hclock.
  assert (Hst : Spec.stored MOCK airportId = Some l)
    by (unfold Spec.stored; rewrite Hget; reflexivity).
  destruct (GET_airport MOCK airportId l w Hne Hst) as (extra & Heq & Hno & Hyes).
  eexists. split; [exact Heq |].
  cbn [advisories]. rewrite in_app_iff. unfold activeAdvisories at 1.
  rewrite filter_In, Z.ltb_lt.
  split.
  - intros [[_ H] | H]; [exact H |].
    destruct (JS.random w (JS.random_pos w) <? 0.1)%float.
    + destruct (Hyes eq_refl) as (new & -> & Hexp).
      destruct H as [<- | []]. lia.
    + rewrite (Hno eq_refl) in H. destruct H.
  - intro H. left. split; assumption.
Qed.

(** C2, as the code has it: two runs of the advisories handler on the same
    table and request that read the same instant give the same answer when
    neither draws a gate value below 0.1, and the answer for an airport is
    then the unexpired advisories the table holds for it; the panel's timer
    leaves its list as it is when its gate draw is not below 0.2. *)
Theorem runs_agree_without_injection : forall MOCK airportId w1 w2,
  JS.clock w1 (JS.clock_pos w1) = JS.clock w2 (JS.clock_pos w2) ->
  (JS.random w1 (JS.random_pos w1) <? 0.1)%float = false ->
  (JS.random w2 (JS.random_pos w2) <? 0.1)%float = false ->
  fst (GET MOCK airportId w1) = fst (GET MOCK airportId w2) /\
  (forall key l, airportId = Some key -> key <> "" ->
     Spec.stored MOCK key = Some l ->
     Spec.bodyOf (fst (GET MOCK airportId w1)) =
     Some {| advisories := activeAdvisories l (JS.clock w1 (JS.clock_pos w1));
             total := Z.of_nat (List.length
                        (activeAdvisories l (JS.clock w1 (JS.clock_pos w1))));
             airport := airportId |}) /\
  (forall panelAirport shown,
     (JS.random w1 (JS.random_pos w1) <? 0.2)%float = false ->
     fst (AdvisoryPanel.timer panelAirport shown w1) = shown).
Proof.
  intros MOCK airportId w1 w2 Hclk Hg1 Hg2.
  assert (Hkey : forall key l w, airportId = Some key -> key <> "" ->
            Spec.stored MOCK key = Some l ->
            (JS.random w (JS.random_pos w) <? 0.1)%float = false ->
            fst (GET MOCK airportId w) =
            JS.json {| advisories := activeAdvisories l (JS.clock w (JS.clock_pos w));
                       total := Z.of_nat (List.length
                                  (activeAdvisories l (JS.clock w (JS.clock_pos w))));
                       airport := airportId |}).
  { intros key l w -> Hne Hst Hg.
    destruct (GET_airport MOCK key l w Hne Hst) as (extra & Heq & Hno & _).
    rewrite (Hno Hg), app_nil_r in Heq. exact Heq. }
  split; [| split].
  - destruct (JS.falsy airportId) eqn:Hf.
    + rewrite !GET_no_airport by exact Hf. reflexivity.
    + destruct airportId as [key |]; [| discriminate].
      assert (Hne : key <> "") by (apply String.eqb_neq; exact Hf).
      destruct (Spec.stored MOCK key) as [l |] eqn:Hst.
      * rewrite (Hkey key l w1 eq_refl Hne Hst Hg1).
        rewrite (Hkey key l w2 eq_refl Hne Hst Hg2).
        rewrite Hclk. reflexivity.
      * unfold Spec.stored in Hst.
        destruct (JS.get MOCK key) as [l' | name |] eqn:Hget; try discriminate.
        rewrite !(GET_inherited MOCK key name) by assumption. reflexivity.
  - intros key l Hk Hne Hst.
    rewrite (Hkey key l w1 Hk Hne Hst Hg1). reflexivity.
  - intros panelAirport shown Hg.
    unfold AdvisoryPanel.timer, JS.bind at 1, JS.Math_random at 1.
    cbv iota beta. rewrite Hg. reflexivity.
Qed.

Lemma aircraft_GET_unknown : forall code w,
  code <> "" ->
  JS.get AircraftRoute.MOCK_AIRCRAFT code = JS.Undefined ->
  AircraftRoute.GET (Some code) w =
  (JS.json {| AircraftRoute.aircraft := []; AircraftRoute.total := 0;
              AircraftRoute.airport := Some code |}, w).
Proof.
  intros code w Hne Hget. unfold AircraftRoute.GET.
  rewrite (falsy_nonempty code Hne), Hget. reflexivity.
Qed.

Lemma touch_keeps_keys : forall (MOCK : JS.object Weather.t) w key,
  JS.getOwn MOCK key = None ->
  JS.getOwn (fst (JS.mapM WeatherRoute.touch MOCK w)) key = None.
Proof.
  induction MOCK as [| [k v] MOCK IH]; intros w key H.
  - reflexivity.
  - simpl in H. destruct (String.eqb k key) eqn:Hk; [discriminate |].
    simpl JS.mapM. unfold JS.bind at 1.
    destruct (WeatherRoute.touch (k, v) w) as [[k' v'] w1] eqn:Ht.
    assert (Hk' : k' = k).
    { unfold WeatherRoute.touch, JS.bind, JS.Date_now, JS.ret in Ht.
      simpl in Ht. injection Ht as <- _ _. reflexivity. }
    subst k'. unfold JS.bind at 1.
    specialize (IH w1 key H).
    destruct (JS.mapM WeatherRoute.touch MOCK w1) as [bs w2].
    simpl. rewrite Hk. exact IH.
Qed.

Lemma touch_keeps_undefined : forall (MOCK : JS.object Weather.t) w key,
  JS.get MOCK key = JS.Undefined ->
  JS.get (fst (JS.mapM WeatherRoute.touch MOCK w)) key = JS.Undefined.
Proof.
  intros MOCK w key H. unfold JS.get in *.
  destruct (JS.getOwn MOCK key) eqn:Hown; [discriminate |].
  rewrite (touch_keeps_keys MOCK w key Hown). exact H.
Qed.

Lemma weather_GET_key : forall up MOCK code w,
  code <> "" ->
  fst (fst (WeatherRoute.GET up MOCK (Some code) w)) =
  match JS.get (fst (JS.mapM WeatherRoute.touch MOCK w)) (up code) with
  | JS.Undefined =>
      JS.json_status
        (WeatherRoute.Error "Weather for specified airport not found" "WEATHER_NOT_FOUND")
        404
  | JS.Own weather => JS.json (WeatherRoute.One weather)
  | JS.Inherited name => JS.json (WeatherRoute.OneInherited name)
  end.
Proof.
  intros up MOCK code w Hne. unfold WeatherRoute.GET.
  unfold JS.bind at 1.
  destruct (JS.mapM WeatherRoute.touch MOCK w) as [MOCK' w1].
  rewrite (falsy_nonempty code Hne). cbn [negb fst].
  destruct (JS.get MOCK' (up code)); reflexivity.
Qed.

Lemma airports_GET_key : forall up code,
  code <> "" ->
  AirportsRoute.GET up (Some code) =
  match JS.get AirportsRoute.MOCK_AIRPORTS (up code) with
  | JS.Undefined =>
      JS.json_status (AirportsRoute.Error "Airport not found" "AIRPORT_NOT_FOUND") 404
  | JS.Own airport => JS.json (AirportsRoute.One airport)
  | JS.Inherited name => JS.json (AirportsRoute.OneInherited name)
  end.
Proof.
  intros up code Hne. unfold AirportsRoute.GET.
  rewrite (falsy_nonempty code Hne). reflexivity.
Qed.


Lemma mapM_touch : forall MOCK w,
  JS.mapM WeatherRoute.touch MOCK w =
  (Spec.refreshed (JS.clock w) (JS.clock_pos w) MOCK,
   {| JS.clock := JS.clock w;
      JS.clock_pos := (List.length MOCK + JS.clock_pos w)%nat;
      JS.random := JS.random w; JS.random_pos := JS.random_pos w |}).
Proof.
  induction MOCK as [| [k v] MOCK IH]; intros [clk cp rnd rp].
  - reflexivity.
  - simpl JS.mapM. unfold JS.bind at 1.
    unfold WeatherRoute.touch at 1, JS.bind at 1, JS.Date_now at 1, JS.ret at 1.
    cbn [JS.clock JS.clock_pos JS.random JS.random_pos fst snd].
    unfold JS.bind at 1. rewrite IH.
    cbn [JS.clock JS.clock_pos JS.random JS.random_pos].
    unfold JS.ret. simpl Spec.refreshed. unfold Spec.retimed.
    rewrite Nat.add_succ_r. reflexivity.
Qed.

Lemma refreshed_keys : forall clk pos MOCK,
  map fst (Spec.refreshed clk pos MOCK) = map fst MOCK.
Proof.
  intros clk pos MOCK. revert pos.
  induction MOCK as [| [k v] MOCK IH]; intro pos; simpl.
  - reflexivity.
  - rewrite IH. reflexivity.
Qed.

Lemma refreshed_length : forall clk pos MOCK,
  List.length (JS.Object_values (Spec.refreshed clk pos MOCK)) = List.length MOCK.
Proof.
  intros clk pos MOCK. unfold JS.Object_values. rewrite length_map.
  rewrite <- (length_map fst (Spec.refreshed clk pos MOCK)), refreshed_keys.
  apply length_map.
Qed.

(** C10, as the code has it: for a non-empty airport id that names no
    property of the table (no key of it and no member of Object.prototype),
    the aircraft handler answers 200 with an empty list and the advisories
    handler 200 with no stored advisory: an empty list, or the one generated
    advisory when the gate draw is below 0.1.  The weather and airports
    handlers answer 404 with their error object for a non-empty code whose
    upper-case form names no property of their table; they look up the
    upper-case form of the code (two codes with the same upper-case form get
    the same answer), the other two the code as given: "krhv" finds a
    weather report and an airport, no aircraft and no advisory.  An empty
    parameter is handled as an absent one by the four handlers: the answer
    is 200 with all the entries of the table (for the weather, as the
    request has just refreshed them) and their number. *)
Theorem unknown_airport_answers :
  forall (toUpperCase : string -> string) (code : string) (w : JS.World),
  code <> "" ->
  (JS.get AircraftRoute.MOCK_AIRCRAFT code = JS.Undefined ->
   fst (AircraftRoute.GET (Some code) w) =
   JS.json {| AircraftRoute.aircraft := []; AircraftRoute.total := 0;
              AircraftRoute.airport := Some code |}) /\
  (forall MOCK, JS.get MOCK code = JS.Undefined ->
   exists l,
     fst (AdvisoriesRoute.GET MOCK (Some code) w) =
     JS.json {| advisories := l; total := Z.of_nat (List.length l);
                airport := Some code |} /\
     ((JS.random w (JS.random_pos w) <? 0.1)%float = false -> l = []) /\
     ((JS.random w (JS.random_pos w) <? 0.1)%float = true -> List.length l = 1%nat)) /\
  (forall MOCK, JS.get MOCK (toUpperCase code) = JS.Undefined ->
   fst (fst (WeatherRoute.GET toUpperCase MOCK (Some code) w)) =
   JS.json_status
     (WeatherRoute.Error "Weather for specified airport not found" "WEATHER_NOT_FOUND")
     404) /\
  (JS.get AirportsRoute.MOCK_AIRPORTS (toUpperCase code) = JS.Undefined ->
   AirportsRoute.GET toUpperCase (Some code) =
   JS.json_status (AirportsRoute.Error "Airport not found" "AIRPORT_NOT_FOUND") 404) /\
  (forall MOCK code', code' <> "" -> toUpperCase code' = toUpperCase code ->
   fst (fst (WeatherRoute.GET toUpperCase MOCK (Some code') w)) =
   fst (fst (WeatherRoute.GET toUpperCase MOCK (Some code) w)) /\
   AirportsRoute.GET toUpperCase (Some code') = AirportsRoute.GET toUpperCase (Some code)) /\
  (forall param, JS.falsy param = true ->
   AircraftRoute.GET param w =
   (JS.json {| AircraftRoute.aircraft :=
                 List.concat (JS.Object_values AircraftRoute.MOCK_AIRCRAFT);
               AircraftRoute.total := 5;
               AircraftRoute.airport := None |}, w) /\
   (forall MOCK,
      AdvisoriesRoute.GET MOCK param w =
      (JS.json {| advisories := List.concat (JS.Object_values MOCK);
                  total := Z.of_nat (List.length (List.concat (JS.Object_values MOCK)));
                  airport := None |}, w)) /\
   (forall MOCK,
      fst (fst (WeatherRoute.GET toUpperCase MOCK param w)) =
      JS.json (WeatherRoute.All
                 (JS.Object_values (Spec.refreshed (JS.clock w) (JS.clock_pos w) MOCK))
                 (Z.of_nat (List.length MOCK)))) /\
   AirportsRoute.GET toUpperCase param =
   JS.json (AirportsRoute.All (JS.Object_values AirportsRoute.MOCK_AIRPORTS) 3)) /\
  ((exists weather,
      fst (fst (WeatherRoute.GET JS.toUpperCase_ascii weather0 (Some "krhv") w)) =
      JS.json (WeatherRoute.One weather) /\
      Weather.airport_icao weather = "KRHV") /\
   (exists airport,
      AirportsRoute.GET JS.toUpperCase_ascii (Some "krhv") =
      JS.json (AirportsRoute.One airport) /\
      Airport.id airport = "KRHV") /\
   fst (AircraftRoute.GET (Some "krhv") w) =
   JS.json {| AircraftRoute.aircraft := []; AircraftRoute.total := 0;
              AircraftRoute.airport := Some "krhv" |} /\
   Spec.stored table0 "krhv" = Some []).
Proof.
  intros toUpperCase code w Hne.
  repeat match goal with |- _ /\ _ => split end.
  - intro Hget. rewrite (aircraft_GET_unknown code w Hne Hget). reflexivity.
  - intros MOCK Hget.
    assert (Hst : Spec.stored MOCK code = Some [])
      by (unfold Spec.stored; rewrite Hget; reflexivity).
    destruct (GET_airport MOCK code [] w Hne Hst) as (extra & Heq & Hno & Hyes).
    exists extra. split; [exact Heq |]. split; [exact Hno |].
    intro Hg. destruct (Hyes Hg) as (adv & -> & _). reflexivity.
  - intros MOCK Hget. rewrite (weather_GET_key toUpperCase MOCK code w Hne).
    rewrite (touch_keeps_undefined MOCK w _ Hget). reflexivity.
  - intro Hget. rewrite (airports_GET_key toUpperCase code Hne), Hget. reflexivity.
  - intros MOCK code' Hne' Hup. split.
    + rewrite (weather_GET_key toUpperCase MOCK code' w Hne'),
              (weather_GET_key toUpperCase MOCK code w Hne), Hup. reflexivity.
    + rewrite (airports_GET_key toUpperCase code' Hne'),
              (airports_GET_key toUpperCase code Hne), Hup. reflexivity.
  - intros param Hf. repeat match goal with |- _ /\ _ => split end.
    + unfold AircraftRoute.GET. rewrite Hf. reflexivity.
    + intro MOCK. apply GET_no_airport. exact Hf.
    + intro MOCK. unfold WeatherRoute.GET, JS.bind.
      rewrite mapM_touch, Hf. cbn [negb fst JS.ret].
      rewrite refreshed_length. reflexivity.
    + unfold AirportsRoute.GET. rewrite Hf. reflexivity.
  - rewrite weather_GET_key by discriminate.
    eexists. split; reflexivity.
  - eexists. split; reflexivity.
  - apply (f_equal fst (aircraft_GET_unknown "krhv" w ltac:(discriminate) eq_refl)).
  - reflexivity.
Qed.

Lemma expiry_filter_at_airport_witness :
  "KPAO" <> "" /\
  JS.get table0 "KPAO" = JS.Own [kpaoWeather] /\
  In kpaoWeather [kpaoWeather] /\
  (exists b,
     fst (GET table0 (Some "KPAO") (steady 1000 0.5%float)) = JS.json b /\
     (In kpaoWeather (advisories b) <-> 1000 < Advisory.expires kpaoWeather)).
Proof.
  assert (H1 : "KPAO" <> "") by discriminate.
  assert (H2 : JS.get table0 "KPAO" = JS.Own [kpaoWeather]) by reflexivity.
  assert (H3 : In kpaoWeather [kpaoWeather]) by (left; reflexivity).
  assert (H4 : JS.clock (steady 1000 0.5%float) (JS.clock_pos (steady 1000 0.5%float)) <=
               JS.clock (steady 1000 0.5%float) (3 + JS.clock_pos (steady 1000 0.5%float)))
    by (simpl; lia).
  exact (conj H1 (conj H2 (conj H3
    (expiry_filter_at_airport table0 "KPAO" [kpaoWeather] kpaoWeather
       (steady 1000 0.5%float) H1 H2 H3 H4)))).
Defined.

(** C3 fails as stated: the advisory of KPAO expires at 3600000; the query
    for KPAO at that very instant leaves it out, and the query that names no
    airport still returns it one millisecond later. *)
Lemma expiry_at_the_boundary_and_without_airport :
  Advisory.expires kpaoWeather = 3600000 /\
  JS.get table0 "KPAO" = JS.Own [kpaoWeather] /\
  fst (GET table0 (Some "KPAO") (steady 3600000 0.5%float)) =
  JS.json {| advisories := []; total := 0; airport := Some "KPAO" |} /\
  (exists b,
     fst (GET table0 None (steady 3600001 0.5%float)) = JS.json b /\
     total b = 4 /\ In kpaoWeather (advisories b)).
Proof.
  repeat match goal with |- _ /\ _ => split end; try reflexivity.
  eexists. split; [reflexivity |]. split; [reflexivity |].
  simpl. right. right. right. left. reflexivity.
Qed.

Lemma runs_agree_without_injection_witness :
  JS.clock (steady 1000 0.5%float) (JS.clock_pos (steady 1000 0.5%float)) =
  JS.clock (steady 1000 0.75%float) (JS.clock_pos (steady 1000 0.75%float)) /\
  (JS.random (steady 1000 0.5%float) (JS.random_pos (steady 1000 0.5%float)) <? 0.1)%float
    = false /\
  (JS.random (steady 1000 0.75%float) (JS.random_pos (steady 1000 0.75%float)) <? 0.1)%float
    = false /\
  fst (GET table0 (Some "KPAO") (steady 1000 0.5%float)) =
  fst (GET table0 (Some "KPAO") (steady 1000 0.75%float)) /\
  Spec.bodyOf (fst (GET table0 (Some "KPAO") (steady 1000 0.5%float))) =
  Some {| advisories := activeAdvisories [kpaoWeather] 1000;
          total := Z.of_nat (List.length (activeAdvisories [kpaoWeather] 1000));
          airport := Some "KPAO" |} /\
  fst (AdvisoryPanel.timer "KPAO" [kpaoWeather] (steady 1000 0.5%float)) = [kpaoWeather].
Proof.
  assert (H1 : JS.clock (steady 1000 0.5%float) (JS.clock_pos (steady 1000 0.5%float)) =
               JS.clock (steady 1000 0.75%float) (JS.clock_pos (steady 1000 0.75%float)))
    by reflexivity.
  assert (H2 : (JS.random (steady 1000 0.5%float)
                  (JS.random_pos (steady 1000 0.5%float)) <? 0.1)%float = false)
    by reflexivity.
  assert (H3 : (JS.random (steady 1000 0.75%float)
                  (JS.random_pos (steady 1000 0.75%float)) <? 0.1)%float = false)
    by reflexivity.
  pose proof (runs_agree_without_injection table0 (Some "KPAO")
                (steady 1000 0.5%float) (steady 1000 0.75%float) H1 H2 H3)
    as (Hsame & Hbody & Htimer).
  assert (Hne : "KPAO" <> "") by discriminate.
  exact (conj H1 (conj H2 (conj H3 (conj Hsame
           (conj (Hbody "KPAO" [kpaoWeather] eq_refl Hne eq_refl)
                 (Htimer "KPAO" [kpaoWeather] eq_refl)))))).
Defined.

(** C2 fails as stated: on the same table, for the same airport and at the
    same instant, the handler answers one advisory when its draws are 0.5
    and two when they are 0.0625; the panel's timer, on the same empty
    list, leaves it empty or puts an advisory in it. *)
Lemma random_draws_change_the_output :
  fst (GET table0 (Some "KPAO") (steady 1000 0.5%float)) =
  JS.json {| advisories := [kpaoWeather]; total := 1; airport := Some "KPAO" |} /\
  fst (GET table0 (Some "KPAO") (steady 1000 0.0625%float)) =
  JS.json {| advisories := [kpaoWeather; generated]; total := 2;
             airport := Some "KPAO" |} /\
  fst (AdvisoryPanel.timer "KPAO" [] (steady 1000 0.5%float)) = [] /\
  fst (AdvisoryPanel.timer "KPAO" [] (steady 1000 0.0625%float)) = [reported].
Proof. repeat split; vm_compute; reflexivity. Qed.

Lemma unknown_airport_answers_witness :
  "KXYZ" <> "" /\
  JS.get AircraftRoute.MOCK_AIRCRAFT "KXYZ" = JS.Undefined /\
  JS.get table0 "KXYZ" = JS.Undefined /\
  JS.get weather0 (JS.toUpperCase_ascii "KXYZ") = JS.Undefined /\
  JS.get AirportsRoute.MOCK_AIRPORTS (JS.toUpperCase_ascii "KXYZ") = JS.Undefined /\
  fst (AircraftRoute.GET (Some "KXYZ") (steady 1000 0.5%float)) =
  JS.json {| AircraftRoute.aircraft := []; AircraftRoute.total := 0;
             AircraftRoute.airport := Some "KXYZ" |} /\
  (exists l,
     fst (GET table0 (Some "KXYZ") (steady 1000 0.5%float)) =
     JS.json {| advisories := l; total := Z.of_nat (List.length l);
                airport := Some "KXYZ" |} /\
     l = []) /\
  fst (fst (WeatherRoute.GET JS.toUpperCase_ascii weather0 (Some "KXYZ")
              (steady 1000 0.5%float))) =
  JS.json_status
    (WeatherRoute.Error "Weather for specified airport not found" "WEATHER_NOT_FOUND")
    404 /\
  AirportsRoute.GET JS.toUpperCase_ascii (Some "KXYZ") =
  JS.json_status (AirportsRoute.Error "Airport not found" "AIRPORT_NOT_FOUND") 404 /\
  JS.falsy (Some "") = true /\
  AircraftRoute.GET (Some "") (steady 1000 0.5%float) =
  (JS.json {| AircraftRoute.aircraft :=
                List.concat (JS.Object_values AircraftRoute.MOCK_AIRCRAFT);
              AircraftRoute.total := 5;
              AircraftRoute.airport := None |}, steady 1000 0.5%float) /\
  AirportsRoute.GET JS.toUpperCase_ascii (Some "") =
  JS.json (AirportsRoute.All (JS.Object_values AirportsRoute.MOCK_AIRPORTS) 3).
Proof.
  assert (H0 : "KXYZ" <> "") by discriminate.
  assert (H1 : JS.get AircraftRoute.MOCK_AIRCRAFT "KXYZ" = JS.Undefined) by reflexivity.
  assert (H1' : JS.get table0 "KXYZ" = JS.Undefined) by reflexivity.
  assert (H2 : JS.get weather0 (JS.toUpperCase_ascii "KXYZ") = JS.Undefined)
    by reflexivity.
  assert (H3 : JS.get AirportsRoute.MOCK_AIRPORTS (JS.toUpperCase_ascii "KXYZ") =
               JS.Undefined) by reflexivity.
  pose proof (unknown_airport_answers JS.toUpperCase_ascii "KXYZ"
                (steady 1000 0.5%float) H0) as (Ha & Hadv & Hw & Hp & _ & Hall & _).
  destruct (Hadv table0 H1') as (l & Hl & Hempty & _).
  assert (Hf : JS.falsy (Some "") = true) by reflexivity.
  destruct (Hall (Some "") Hf) as (Hlist & _ & _ & Hports).
  exact (conj H0 (conj H1 (conj H1' (conj H2 (conj H3
           (conj (Ha H1)
              (conj (ex_intro _ l (conj Hl (Hempty eq_refl)))
                 (conj (Hw weather0 H2)
                    (conj (Hp H3) (conj Hf (conj Hlist Hports))))))))))).
Defined.

(** C10 fails as stated: "KXYZ" is in no table, and the advisories handler
    answers it with one advisory when the gate draw is 0.0625;
    "constructor" is in no table, and the aircraft and advisories handlers
    throw on it; the empty airport id is in no table, and the aircraft
    handler answers it with all five aircraft, the weather handler with all
    three reports and the airports handler with all three airports (status
    200, not 404). *)
Lemma unknown_airport_exceptions :
  (Spec.stored table0 "KXYZ" = Some [] /\
   exists adv,
     fst (GET table0 (Some "KXYZ") (steady 1000 0.0625%float)) =
     JS.json {| advisories := [adv]; total := 1; airport := Some "KXYZ" |}) /\
  (JS.getOwn AircraftRoute.MOCK_AIRCRAFT "constructor" = None /\
   fst (AircraftRoute.GET (Some "constructor") (steady 1000 0.5%float)) =
   JS.Thrown "TypeError: aircraft.map is not a function" /\
   JS.getOwn table0 "constructor" = None /\
   fst (GET table0 (Some "constructor") (steady 1000 0.5%float)) =
   JS.Thrown "TypeError: advisories.filter is not a function") /\
  (JS.getOwn AircraftRoute.MOCK_AIRCRAFT "" = None /\
   fst (AircraftRoute.GET (Some "") (steady 1000 0.5%float)) =
   JS.json {| AircraftRoute.aircraft :=
                List.concat (JS.Object_values AircraftRoute.MOCK_AIRCRAFT);
              AircraftRoute.total := 5;
              AircraftRoute.airport := None |}) /\
  (JS.getOwn weather0 (JS.toUpperCase_ascii "") = None /\
   fst (fst (WeatherRoute.GET JS.toUpperCase_ascii weather0 (Some "")
               (steady 1000 0.5%float))) =
   JS.json (WeatherRoute.All
              (JS.Object_values (Spec.refreshed (fun _ => 1000) 0 weather0)) 3)) /\
  (JS.getOwn AirportsRoute.MOCK_AIRPORTS (JS.toUpperCase_ascii "") = None /\
   AirportsRoute.GET JS.toUpperCase_ascii (Some "") =
   JS.json (AirportsRoute.All (JS.Object_values AirportsRoute.MOCK_AIRPORTS) 3)).
Proof.
  repeat match goal with |- _ /\ _ => split end; try reflexivity;
    eexists; try split; vm_compute; reflexivity.
Qed.

End RouteFacts.

(** ** The approach paths of TrafficMap *)

Section MapFacts.

Import Inputs.



(** C1 on a runway heading 180 with its threshold at (0, 0), for any
    cosine and sine exact at 0: the approach path runs from (5/60, 0) to the
    threshold; a descending aircraft over the threshold and one a mile out
    on the centre line are within the lateral tolerance of the path (at
    distance 0 from it, up to rounding), and the filter counts neither, for
    it measures from the middle of the path. *)
Theorem approach_filter_measures_from_the_middle :
  forall Math_cos Math_sin : float -> float,
  Math_cos 0%float = 1%float ->
  Math_sin 0%float = 0%float ->
  let start := TrafficMap.approachStart Math_cos Math_sin runway18 in
  let threshold := Runway.threshold1 runway18 in
  start = (5 / 60, 0)%float /\
  Spec.pointToSegmentDistance (Aircraft.position overThreshold) start threshold = 0%float /\
  (Spec.pointToSegmentDistance (Aircraft.position onFinal) start threshold
     <? 0.000001)%float = true /\
  Spec.onCorridor (Aircraft.position overThreshold) start threshold = true /\
  Spec.onCorridor (Aircraft.position onFinal) start threshold = true /\
  TrafficMap.onApproach start threshold overThreshold = false /\
  TrafficMap.onApproach start threshold onFinal = false /\
  TrafficMap.aircraftOnApproach Math_cos Math_sin runway18 [overThreshold; onFinal] = [].
Proof.
  intros Math_cos Math_sin Hcos Hsin.
  assert (Hstart : TrafficMap.approachStart Math_cos Math_sin runway18 = (5 / 60, 0)%float).
  { unfold TrafficMap.approachStart.
    change (Runway.heading runway18) with 180%float.
    change (fst (Runway.threshold1 runway18)) with 0%float.
    change (snd (Runway.threshold1 runway18)) with 0%float.
    replace ((180 - 180) * JS.Math_PI / 180)%float with 0%float by reflexivity.
    replace (0 * JS.Math_PI / 180)%float with 0%float by reflexivity.
    rewrite Hcos, Hsin. vm_compute. reflexivity. }
  cbv zeta. unfold TrafficMap.aircraftOnApproach. rewrite Hstart.
  repeat split; vm_compute; reflexivity.
Qed.

Lemma approach_filter_measures_from_the_middle_witness :
  cos0 0%float = 1%float /\ sin0 0%float = 0%float /\
  TrafficMap.aircraftOnApproach cos0 sin0 runway18 [overThreshold; onFinal] = [].
Proof.
  pose proof (approach_filter_measures_from_the_middle cos0 sin0 eq_refl eq_refl) as H.
  cbv zeta in H.
  exact (conj eq_refl (conj eq_refl (proj2 (proj2 (proj2 (proj2 (proj2 (proj2 (proj2 H))))))))).
Defined.

End MapFacts.

(** * Further properties *)

(** ** The ingestion service *)

Section MoreIngestionFacts.

Import DataIngestion Inputs.

Lemma parse_filter_map : forall now icao l,
  parseAircraftStates {| Time := now; States := l |} icao =
  map (stateOf now icao) (filter (fun r => negb (List.length r <? 17)%nat) l).
Proof.
  intros now icao l. induction l as [| r l IH].
  - reflexivity.
  - rewrite parse_cons, IH. simpl filter.
    destruct (List.length r <? 17)%nat; reflexivity.
Qed.

(** X1: the loop of [parseAircraftStates] is a filter followed by a map: it
    returns the states of the arrays of at least 17 elements, in the order
    of the batch, so never more states than the batch has records. *)
Theorem parse_is_filter_then_map : forall response icao,
  parseAircraftStates response icao =
  map (stateOf (Time response) icao)
    (filter (fun r => negb (List.length r <? 17)%nat) (States response)) /\
  (List.length (parseAircraftStates response icao) <= List.length (States response))%nat.
Proof.
  intros [now l] icao. simpl Time. simpl States.
  rewrite parse_filter_map. split; [reflexivity |].
  rewrite length_map. apply filter_length_le.
Qed.

(** X2: every state of a parsed batch carries the time of the response
    and the airport the batch was polled for. *)
Theorem parse_stamps_every_state : forall response icao s,
  In s (parseAircraftStates response icao) ->
  Timestamp s = Time response /\ AirportVicinity s = icao.
Proof.
  intros [now l] icao s Hin. rewrite parse_filter_map in Hin.
  apply in_map_iff in Hin. destruct Hin as (r & <- & _).
  split; reflexivity.
Qed.

Lemma parse_stamps_every_state_witness :
  In (stateOf 1700000000 "KRHV" fresh)
     (parseAircraftStates {| Time := 1700000000; States := [fresh; stale] |} "KRHV") /\
  Timestamp (stateOf 1700000000 "KRHV" fresh) = 1700000000 /\
  AirportVicinity (stateOf 1700000000 "KRHV" fresh) = "KRHV".
Proof.
  assert (H : In (stateOf 1700000000 "KRHV" fresh)
                (parseAircraftStates {| Time := 1700000000; States := [fresh; stale] |}
                   "KRHV")) by (left; reflexivity).
  exact (conj H (parse_stamps_every_state _ _ _ H)).
Defined.

(** X3: a state depends on twelve elements of its array only (0, 1, 2, 4 to
    11 and 16): two arrays that agree there give the same state. *)
Theorem stateOf_reads_twelve_elements : forall now icao r r',
  (forall i, In i Spec.readIndices -> index r i = index r' i) ->
  stateOf now icao r = stateOf now icao r'.
Proof.
  intros now icao r r' H. unfold stateOf.
  rewrite (H 0%nat), (H 1%nat), (H 2%nat), (H 4%nat), (H 5%nat), (H 6%nat),
          (H 7%nat), (H 8%nat), (H 9%nat), (H 10%nat), (H 11%nat), (H 16%nat);
    try reflexivity; unfold Spec.readIndices; simpl; tauto.
Qed.

Lemma stateOf_reads_twelve_elements_witness :
  (forall i, In i Spec.readIndices -> index fresh i = index freshWithGeoAltitude i) /\
  index fresh 13 <> index freshWithGeoAltitude 13 /\
  stateOf 1700000000 "KRHV" fresh = stateOf 1700000000 "KRHV" freshWithGeoAltitude.
Proof.
  assert (H : forall i, In i Spec.readIndices ->
                index fresh i = index freshWithGeoAltitude i).
  { intros i Hi. unfold Spec.readIndices in Hi. simpl in Hi.
    repeat (destruct Hi as [<- | Hi]; [reflexivity |]). destruct Hi. }
  split; [exact H |]. split.
  - intro E. discriminate E.
  - exact (stateOf_reads_twelve_elements 1700000000 "KRHV" fresh freshWithGeoAltitude H).
Defined.

(** X4: an element of a type other than the one the parser asserts (a
    string where a number is expected, a number where the id is expected,
    and so on) is read as if it were null: the failed assertion is
    ignored. *)
Theorem wrong_type_reads_as_null : forall now icao r i v,
  In i Spec.readIndices ->
  Spec.hasAssertedType i v = false ->
  stateOf now icao (Spec.update i v r) = stateOf now icao (Spec.update i JNull r).
Proof.
  intros now icao r i v Hi Hv.
  unfold Spec.readIndices in Hi. simpl in Hi.
  repeat (destruct Hi as [<- | Hi];
          [ destruct v; try discriminate Hv;
            do 17 (destruct r as [| ? r]; [reflexivity |]); reflexivity |]).
  destruct Hi.
Qed.

Lemma wrong_type_reads_as_null_witness :
  In 6%nat Spec.readIndices /\
  Spec.hasAssertedType 6 (JString "37.33") = false /\
  Latitude (stateOf 1700000000 "KRHV" (Spec.update 6 (JString "37.33") fresh)) = 0%float /\
  stateOf 1700000000 "KRHV" (Spec.update 6 (JString "37.33") fresh) =
  stateOf 1700000000 "KRHV" (Spec.update 6 JNull fresh).
Proof.
  assert (H1 : In 6%nat Spec.readIndices) by (unfold Spec.readIndices; simpl; tauto).
  assert (H2 : Spec.hasAssertedType 6 (JString "37.33") = false) by reflexivity.
  exact (conj H1 (conj H2 (conj eq_refl
           (wrong_type_reads_as_null 1700000000 "KRHV" fresh 6 (JString "37.33") H1 H2)))).
Defined.

Lemma processAirport_lines : forall env k airport,
  exists rest,
    processAirport env k airport = Spec.fetchingLine airport :: rest /\
    (1 <= List.length rest <= 2)%nat.
Proof.
  intros env k airport. unfold processAirport.
  destruct (Do env _) as [err | st | err | resp].
  - eexists. split; [reflexivity | simpl; lia].
  - eexists. split; [reflexivity | simpl; lia].
  - eexists. split; [reflexivity | simpl; lia].
  - destruct (parseAircraftStates resp (AirportBoundary.ICAO airport));
      eexists; (split; [reflexivity | simpl; lia]).
Qed.

(** X5: a tick polls every airport of its list, whatever the network
    answers for the others: the line announcing the poll of each airport is
    in the log, and each airport adds two or three lines to it. *)
Theorem every_airport_is_polled : forall env k l,
  (forall airport, In airport l ->
     In (Spec.fetchingLine airport) (processAirports env k l)) /\
  (2 * List.length l <= List.length (processAirports env k l) <= 3 * List.length l)%nat.
Proof.
  intros env k l. revert k. induction l as [| a l IH]; intro k.
  - split; [intros airport [] | simpl; lia].
  - destruct (IH (S k)) as [IHin IHlen].
    destruct (processAirport_lines env k a) as (rest & Heq & Hrest).
    simpl processAirports. rewrite Heq. split.
    + intros airport [<- | Hin].
      * left. reflexivity.
      * apply in_or_app. right. apply IHin. exact Hin.
    + rewrite length_app. simpl List.length. lia.
Qed.

Lemma every_airport_is_polled_witness :
  (forall airport, In airport airports ->
     In (Spec.fetchingLine airport) (processAircraftData offline)) /\
  processAircraftData offline =
  ["Fetching data for KRHV airport vicinity...";
   "Error fetching data: dial tcp: i/o timeout";
   "Fetching data for KPAO airport vicinity...";
   "Error fetching data: dial tcp: i/o timeout"].
Proof.
  exact (conj (proj1 (every_airport_is_polled offline 0 airports)) eq_refl).
Defined.

End MoreIngestionFacts.

(** ** The route handlers *)

Section MoreRouteFacts.

Import Inputs.

Lemma mapM_update : forall l w,
  exists l',
    JS.mapM AircraftRoute.update l w =
    (l', {| JS.clock := JS.clock w; JS.clock_pos := JS.clock_pos w;
            JS.random := JS.random w;
            JS.random_pos := (Spec.draws l + JS.random_pos w)%nat |}) /\
    Forall2 Spec.movedFrom l l'.
Proof.
  induction l as [| a l IH]; intros [clk cp rnd rp].
  - exists []. split; [reflexivity | constructor].
  - simpl JS.mapM. unfold JS.bind at 1.
    destruct (AircraftRoute.update a {| JS.clock := clk; JS.clock_pos := cp;
                                        JS.random := rnd; JS.random_pos := rp |})
      as [a' w1] eqn:Ha.
    assert (Hw1 : w1 = {| JS.clock := clk; JS.clock_pos := cp; JS.random := rnd;
                          JS.random_pos := ((if Aircraft.onGround a then 2 else 3) + rp)%nat |}
                  /\ Spec.movedFrom a a').
    { unfold AircraftRoute.update, JS.bind, JS.Math_random, JS.ret in Ha.
      simpl in Ha. unfold Spec.movedFrom.
      destruct (Aircraft.onGround a); simpl in Ha;
        injection Ha as <- <-; repeat split; reflexivity || discriminate. }
    destruct Hw1 as [-> Hmoved].
    destruct (IH {| JS.clock := clk; JS.clock_pos := cp; JS.random := rnd;
                    JS.random_pos := ((if Aircraft.onGround a then 2 else 3) + rp)%nat |})
      as (l' & Heq & Hall).
    unfold JS.bind at 1. rewrite Heq. cbn [JS.clock JS.clock_pos JS.random JS.random_pos].
    exists (a' :: l'). split.
    + unfold JS.ret. f_equal. f_equal. simpl Spec.draws. lia.
    + constructor; assumption.
Qed.

(** X6: for an airport of the table, the aircraft handler answers 200 with
    as many aircraft as the table holds, in the same order, each with the
    id, callsign, heading, vertical rate, ground flag, type and alert level
    of the table, its altitude moved by one second of vertical rate (0 on
    the ground, with speed 0); it never reads the clock, and draws two
    random numbers for each aircraft and a third for each one not on the
    ground. *)
Theorem aircraft_answer_for_known_airport : forall key l w,
  key <> "" ->
  JS.get AircraftRoute.MOCK_AIRCRAFT key = JS.Own l ->
  exists updated,
    fst (AircraftRoute.GET (Some key) w) =
    JS.json {| AircraftRoute.aircraft := updated;
               AircraftRoute.total := Z.of_nat (List.length l);
               AircraftRoute.airport := Some key |} /\
    Forall2 Spec.movedFrom l updated /\
    JS.clock_pos (snd (AircraftRoute.GET (Some key) w)) = JS.clock_pos w /\
    JS.random_pos (snd (AircraftRoute.GET (Some key) w)) =
    (Spec.draws l + JS.random_pos w)%nat.
Proof.
  intros key l w Hne Hget.
  destruct (mapM_update l w) as (l' & Heq & Hall).
  exists l'. unfold AircraftRoute.GET.
  rewrite (falsy_nonempty key Hne), Hget.
  unfold JS.bind. rewrite Heq. unfold JS.ret, JS.json. simpl.
  rewrite (Forall2_length Hall).
  repeat split; try reflexivity. exact Hall.
Qed.

Lemma aircraft_answer_for_known_airport_witness :
  "KPAO" <> "" /\
  (exists l updated,
     JS.get AircraftRoute.MOCK_AIRCRAFT "KPAO" = JS.Own l /\
     fst (AircraftRoute.GET (Some "KPAO") (steady 1000 0.5%float)) =
     JS.json {| AircraftRoute.aircraft := updated;
                AircraftRoute.total := 2;
                AircraftRoute.airport := Some "KPAO" |} /\
     Forall2 Spec.movedFrom l updated /\
     JS.random_pos (snd (AircraftRoute.GET (Some "KPAO") (steady 1000 0.5%float))) = 6%nat).
Proof.
  assert (Hne : "KPAO" <> "") by discriminate.
  split; [exact Hne |].
  destruct (JS.get AircraftRoute.MOCK_AIRCRAFT "KPAO") as [l | |] eqn:Hget;
    try discriminate Hget.
  destruct (aircraft_answer_for_known_airport "KPAO" l (steady 1000 0.5%float) Hne Hget)
    as (updated & Heq & Hall & _ & Hdraws).
  exists l, updated.
  injection Hget as <-.
  exact (conj eq_refl (conj Heq (conj Hall Hdraws))).
Defined.

Lemma getOwn_In : forall (V : Type) (o : JS.object V) key v,
  JS.getOwn o key = Some v -> In v (JS.Object_values o).
Proof.
  intros V o key v. induction o as [| [k x] o IH]; simpl; intro H.
  - discriminate.
  - destruct (String.eqb k key).
    + injection H as ->. left. reflexivity.
    + right. apply IH. exact H.
Qed.

(** X7: a request that names no airport (or an empty one) is answered with
    every advisory of every airport of the table, expired or not: the
    handler reads neither the clock nor the random source for it. *)
Theorem listing_ignores_expiry : forall MOCK airportId key l adv w,
  JS.falsy airportId = true ->
  JS.getOwn MOCK key = Some l ->
  In adv l ->
  exists b,
    AdvisoriesRoute.GET MOCK airportId w = (JS.json b, w) /\
    In adv (AdvisoriesRoute.advisories b) /\
    AdvisoriesRoute.total b = Z.of_nat (List.length (AdvisoriesRoute.advisories b)).
Proof.
  intros MOCK airportId key l adv w Hf Hown Hin.
  eexists. split; [apply GET_no_airport; exact Hf |].
  split; [| reflexivity].
  cbn [AdvisoriesRoute.advisories]. apply in_concat.
  exists l. split; [| exact Hin].
  eapply getOwn_In. exact Hown.
Qed.

Lemma listing_ignores_expiry_witness :
  JS.falsy None = true /\
  JS.getOwn table0 "KPAO" = Some [kpaoWeather] /\
  In kpaoWeather [kpaoWeather] /\
  Advisory.expires kpaoWeather < 99999999 /\
  (exists b,
     AdvisoriesRoute.GET table0 None (steady 99999999 0.5%float) =
     (JS.json b, steady 99999999 0.5%float) /\
     In kpaoWeather (AdvisoriesRoute.advisories b)).
Proof.
  split; [reflexivity |]. split; [reflexivity |].
  split; [left; reflexivity |]. split; [reflexivity |].
  destruct (listing_ignores_expiry table0 None "KPAO" [kpaoWeather] kpaoWeather
              (steady 99999999 0.5%float) eq_refl eq_refl (or_introl eq_refl))
    as (b & Heq & Hin & _).
  exists b. exact (conj Heq Hin).
Defined.

(** X8: whatever the request, the advisories handler either answers with
    status 200, a [total] equal to the number of advisories it lists and the
    airport of the request, or throws, which it does only for an airport id
    that names a member of [Object.prototype]. *)
Theorem advisories_total_matches : forall MOCK airportId w,
  match fst (AdvisoriesRoute.GET MOCK airportId w) with
  | JS.Returned r =>
      JS.status r = 200 /\
      AdvisoriesRoute.total (JS.body r) =
      Z.of_nat (List.length (AdvisoriesRoute.advisories (JS.body r))) /\
      AdvisoriesRoute.airport (JS.body r) =
      (if JS.falsy airportId then None else airportId)
  | JS.Thrown _ =>
      exists key name, airportId = Some key /\ JS.get MOCK key = JS.Inherited name
  end.
Proof.
  intros MOCK airportId w.
  destruct (JS.falsy airportId) eqn:Hf.
  - rewrite (GET_no_airport MOCK airportId w Hf). simpl. repeat split.
  - destruct airportId as [key |]; [| discriminate].
    assert (Hne : key <> "") by (apply String.eqb_neq; exact Hf).
    destruct (Spec.stored MOCK key) as [l |] eqn:Hst.
    + destruct (GET_airport MOCK key l w Hne Hst) as (extra & Heq & _).
      rewrite Heq. simpl. repeat split.
    + unfold Spec.stored in Hst.
      destruct (JS.get MOCK key) as [l' | name |] eqn:Hget; try discriminate.
      rewrite (GET_inherited MOCK key name w Hne Hget).
      exists key, name. split; [reflexivity | exact Hget].
Qed.

(** X9: the answer for an airport lists the unexpired advisories of the
    table in the order of the table, then at most one generated advisory;
    every advisory of the answer expires strictly after the instant of the
    request (the clock is taken not to run backwards during it). *)
Theorem airport_answer_is_unexpired : forall MOCK key l w,
  key <> "" ->
  Spec.stored MOCK key = Some l ->
  JS.clock w (JS.clock_pos w) <= JS.clock w (3 + JS.clock_pos w) ->
  exists b extra,
    fst (AdvisoriesRoute.GET MOCK (Some key) w) = JS.json b /\
    AdvisoriesRoute.advisories b =
    (AdvisoriesRoute.activeAdvisories l (JS.clock w (JS.clock_pos w)) ++ extra)%list /\
    (List.length extra <= 1)%nat /\
    Forall (fun adv => JS.clock w (JS.clock_pos w) < Advisory.expires adv)
      (AdvisoriesRoute.advisories b).
Proof.
  intros MOCK key l w Hne Hst Hclock.
  destruct (GET_airport MOCK key l w Hne Hst) as (extra & Heq & Hno & Hyes).
  eexists. exists extra. split; [exact Heq |].
  cbn [AdvisoriesRoute.advisories]. split; [reflexivity |].
  assert (Hextra : (List.length extra <= 1)%nat /\
                   Forall (fun adv => JS.clock w (JS.clock_pos w) < Advisory.expires adv)
                     extra).
  { destruct (JS.random w (JS.random_pos w) <? 0.1)%float.
    - destruct (Hyes eq_refl) as (adv & -> & Hexp). split; [simpl; lia |].
      constructor; [lia | constructor].
    - rewrite (Hno eq_refl). split; [simpl; lia | constructor]. }
  destruct Hextra as [Hlen Hall]. split; [exact Hlen |].
  apply Forall_app. split; [| exact Hall].
  apply Forall_forall. intros adv Hin.
  unfold AdvisoriesRoute.activeAdvisories in Hin.
  apply filter_In in Hin. destruct Hin as [_ H]. apply Z.ltb_lt. exact H.
Qed.

Lemma airport_answer_is_unexpired_witness :
  "KRHV" <> "" /\
  (exists b (extra : list Advisory.t),
     fst (AdvisoriesRoute.GET table0 (Some "KRHV") (steady 700000 0.0625%float)) =
     JS.json b /\
     List.length (AdvisoriesRoute.advisories b) = 3%nat /\
     (List.length extra <= 1)%nat /\
     Forall (fun adv => 700000 < Advisory.expires adv) (AdvisoriesRoute.advisories b)).
Proof.
  assert (Hne : "KRHV" <> "") by discriminate.
  split; [exact Hne |].
  destruct (Spec.stored table0 "KRHV") as [l |] eqn:Hst; [| discriminate Hst].
  assert (Hclock : JS.clock (steady 700000 0.0625%float)
                     (JS.clock_pos (steady 700000 0.0625%float)) <=
                   JS.clock (steady 700000 0.0625%float)
                     (3 + JS.clock_pos (steady 700000 0.0625%float))) by (simpl; lia).
  destruct (airport_answer_is_unexpired table0 "KRHV" l (steady 700000 0.0625%float)
              Hne Hst Hclock) as (b & extra & Heq & Hadv & Hlen & Hall).
  exists b, extra. split; [exact Heq |]. split; [| split; [exact Hlen | exact Hall]].
  assert (Hb : Spec.bodyOf
                 (fst (AdvisoriesRoute.GET table0 (Some "KRHV") (steady 700000 0.0625%float))) =
               Some b) by (rewrite Heq; reflexivity).
  vm_compute in Hb. injection Hb as <-. reflexivity.
Defined.

Lemma refreshed_getOwn : forall clk MOCK pos key v,
  JS.getOwn MOCK key = Some v ->
  exists i, (i < List.length MOCK)%nat /\
    JS.getOwn (Spec.refreshed clk pos MOCK) key = Some (Spec.retimed (clk (pos + i)%nat) v).
Proof.
  intros clk MOCK. induction MOCK as [| [k x] MOCK IH]; intros pos key v H.
  - discriminate.
  - simpl in H. simpl Spec.refreshed. simpl JS.getOwn.
    destruct (String.eqb k key).
    + injection H as ->. exists 0%nat. split; [simpl; lia |].
      rewrite Nat.add_0_r. reflexivity.
    + destruct (IH (S pos) key v H) as (i & Hi & Hget).
      exists (S i). split; [simpl; lia |].
      rewrite Hget. f_equal. f_equal. f_equal. lia.
Qed.

(** X10: whatever its airport parameter and whatever it answers (a
    report, the list, or 404), the weather handler leaves the table with
    the same keys in the same order and every report unchanged but for its
    time, which is a reading of the clock made during the request: the
    reading number i for the entry number i. *)
Theorem weather_request_refreshes_table : forall toUpperCase MOCK airport w,
  let result := WeatherRoute.GET toUpperCase MOCK airport w in
  snd (fst result) = Spec.refreshed (JS.clock w) (JS.clock_pos w) MOCK /\
  map fst (snd (fst result)) = map fst MOCK /\
  JS.clock_pos (snd result) = (List.length MOCK + JS.clock_pos w)%nat /\
  JS.random_pos (snd result) = JS.random_pos w.
Proof.
  intros toUpperCase MOCK airport w. cbv zeta.
  unfold WeatherRoute.GET, JS.bind. rewrite mapM_touch.
  destruct (negb (JS.falsy airport)).
  - destruct (JS.get _ _); cbn [fst snd JS.ret];
      (split; [reflexivity | split; [apply refreshed_keys | split; reflexivity]]).
  - cbn [fst snd JS.ret].
    split; [reflexivity | split; [apply refreshed_keys | split; reflexivity]].
Qed.

(** X11: for a non-empty code whose upper-case form is a key of the
    table, the weather handler answers 200 with the report stored under
    that key, its time replaced by a reading of the clock made during the
    request. *)
Theorem weather_of_known_airport : forall toUpperCase MOCK code weather w,
  code <> "" ->
  JS.getOwn MOCK (toUpperCase code) = Some weather ->
  exists i,
    (i < List.length MOCK)%nat /\
    fst (fst (WeatherRoute.GET toUpperCase MOCK (Some code) w)) =
    JS.json (WeatherRoute.One
               (Spec.retimed (JS.clock w (JS.clock_pos w + i)%nat) weather)).
Proof.
  intros toUpperCase MOCK code weather w Hne Hown.
  destruct (refreshed_getOwn (JS.clock w) MOCK (JS.clock_pos w) _ _ Hown)
    as (i & Hi & Hget).
  exists i. split; [exact Hi |].
  rewrite (weather_GET_key toUpperCase MOCK code w Hne), mapM_touch.
  cbn [fst]. unfold JS.get. rewrite Hget. reflexivity.
Qed.

Lemma weather_of_known_airport_witness :
  "kpao" <> "" /\
  (exists weather i,
     JS.getOwn weather0 (JS.toUpperCase_ascii "kpao") = Some weather /\
     Weather.time weather = 0 /\
     (i < List.length weather0)%nat /\
     fst (fst (WeatherRoute.GET JS.toUpperCase_ascii weather0 (Some "kpao")
                 (steady 5000 0.5%float))) =
     JS.json (WeatherRoute.One (Spec.retimed 5000 weather))).
Proof.
  assert (Hne : "kpao" <> "") by discriminate.
  split; [exact Hne |].
  destruct (JS.getOwn weather0 (JS.toUpperCase_ascii "kpao")) as [weather |] eqn:Hown;
    [| discriminate Hown].
  destruct (weather_of_known_airport JS.toUpperCase_ascii weather0 "kpao" weather
              (steady 5000 0.5%float) Hne Hown) as (i & Hi & Heq).
  exists weather, i.
  injection Hown as <-.
  exact (conj eq_refl (conj eq_refl (conj Hi Heq))).
Defined.

Lemma airports_keyed_by_id : forall key airport,
  JS.getOwn AirportsRoute.MOCK_AIRPORTS key = Some airport ->
  Airport.id airport = key.
Proof.
  intros key airport H. unfold AirportsRoute.MOCK_AIRPORTS in H.
  cbn [JS.getOwn] in H.
  repeat match type of H with
         | (if String.eqb ?k key then _ else _) = _ =>
             destruct (String.eqb_spec k key) as [<- | _];
             [injection H as <-; reflexivity |]
         end.
  discriminate H.
Qed.

(** X12: for a non-empty code whose upper-case form is a key of the
    table, the airports handler answers 200 with the airport stored under
    that key, whose id is that upper-case form: the lookup does not depend
    on the case of the code. *)
Theorem airport_of_known_code : forall toUpperCase code airport,
  code <> "" ->
  JS.getOwn AirportsRoute.MOCK_AIRPORTS (toUpperCase code) = Some airport ->
  AirportsRoute.GET toUpperCase (Some code) = JS.json (AirportsRoute.One airport) /\
  Airport.id airport = toUpperCase code.
Proof.
  intros toUpperCase code airport Hne Hown. split.
  - rewrite (airports_GET_key toUpperCase code Hne). unfold JS.get.
    rewrite Hown. reflexivity.
  - apply airports_keyed_by_id. exact Hown.
Qed.

Lemma airport_of_known_code_witness :
  "ksjc" <> "" /\
  (exists airport,
     JS.getOwn AirportsRoute.MOCK_AIRPORTS (JS.toUpperCase_ascii "ksjc") = Some airport /\
     AirportsRoute.GET JS.toUpperCase_ascii (Some "ksjc") =
     JS.json (AirportsRoute.One airport) /\
     Airport.id airport = "KSJC").
Proof.
  assert (Hne : "ksjc" <> "") by discriminate.
  split; [exact Hne |].
  destruct (JS.getOwn AirportsRoute.MOCK_AIRPORTS (JS.toUpperCase_ascii "ksjc"))
    as [airport |] eqn:Hown; [| discriminate Hown].
  destruct (airport_of_known_code JS.toUpperCase_ascii "ksjc" airport Hne Hown)
    as [Heq Hid].
  exists airport. exact (conj eq_refl (conj Heq Hid)).
Defined.

End MoreRouteFacts.

(** ** The advisory lists of the panel and of the page *)

Section MoreSortFacts.

Import Inputs.

Lemma compare_antisym : forall a b,
  compareAdvisories b a = - compareAdvisories a b.
Proof.
  intros a b. unfold compareAdvisories.
  destruct (Z.eqb_spec (Advisory.severity a) (Advisory.severity b));
    destruct (Z.eqb_spec (Advisory.severity b) (Advisory.severity a));
    simpl; lia.
Qed.

Lemma sort_insert_front : forall x l,
  Forall (Spec.mayPrecede x) l ->
  JS.sort_insert compareAdvisories x l = x :: l.
Proof.
  intros x l H. destruct H as [| y l Hy _]; [reflexivity |].
  simpl. apply compare_nonpos_iff in Hy.
  rewrite (compare_antisym x y).
  destruct (Z.ltb_spec (- compareAdvisories x y) 0); [lia | reflexivity].
Qed.

Lemma sorted_is_fixed : forall l,
  StronglySorted Spec.mayPrecede l -> JS.Array_sort compareAdvisories l = l.
Proof.
  intros l H. induction H as [| x l Hs IH Hall].
  - reflexivity.
  - simpl. rewrite IH. apply sort_insert_front. exact Hall.
Qed.

Lemma filter_all : forall (A : Type) (p : A -> bool) (l : list A),
  Forall (fun a => p a = true) l -> filter p l = l.
Proof.
  intros A p l H. induction H as [| a l Ha _ IH]; simpl.
  - reflexivity.
  - rewrite Ha, IH. reflexivity.
Qed.

Lemma filter_sort_insert : forall (p : Advisory.t -> bool) x l,
  StronglySorted Spec.mayPrecede l ->
  filter p (JS.sort_insert compareAdvisories x l) =
  if p x then JS.sort_insert compareAdvisories x (filter p l) else filter p l.
Proof.
  intros p x l Hs. induction Hs as [| y l Hs IH Hall].
  - simpl. destruct (p x); reflexivity.
  - simpl JS.sort_insert.
    destruct (Z.ltb_spec (compareAdvisories y x) 0) as [Hlt | Hge].
    + simpl filter. rewrite IH.
      destruct (p y) eqn:Hy; destruct (p x) eqn:Hx; try reflexivity.
      simpl JS.sort_insert.
      destruct (Z.ltb_spec (compareAdvisories y x) 0); [reflexivity | lia].
    + change (filter p (x :: y :: l))
        with (if p x then x :: filter p (y :: l) else filter p (y :: l)).
      destruct (p x) eqn:Hx; [| reflexivity].
      symmetry. apply sort_insert_front.
      assert (Hxy : Spec.mayPrecede x y).
      { apply compare_nonpos_iff. rewrite (compare_antisym y x). lia. }
      apply Forall_forall. intros z Hz.
      apply filter_In in Hz. destruct Hz as [[<- | Hz] _]; [exact Hxy |].
      eapply mayPrecede_trans; [exact Hxy |].
      exact (proj1 (Forall_forall _ _) Hall z Hz).
Qed.

Lemma filter_Array_sort : forall (p : Advisory.t -> bool) l,
  filter p (JS.Array_sort compareAdvisories l) =
  JS.Array_sort compareAdvisories (filter p l).
Proof.
  intros p l. induction l as [| x l IH].
  - reflexivity.
  - simpl JS.Array_sort. rewrite filter_sort_insert by apply Array_sort_sorted.
    simpl filter. destruct (p x); rewrite IH; reflexivity.
Qed.

(** X13: sorting twice is sorting once: a list that comes out of
    [sortedAdvisories] goes through it unchanged, in the panel and on the
    page (under the same category filter). *)
Theorem sortedAdvisories_is_idempotent : forall advisories filterCategory,
  AdvisoryPanel.sortedAdvisories (AdvisoryPanel.sortedAdvisories advisories) =
  AdvisoryPanel.sortedAdvisories advisories /\
  AdvisoriesPage.sortedAdvisories filterCategory
    (AdvisoriesPage.sortedAdvisories filterCategory advisories) =
  AdvisoriesPage.sortedAdvisories filterCategory advisories.
Proof.
  intros advisories filterCategory. split.
  - unfold AdvisoryPanel.sortedAdvisories.
    apply sorted_is_fixed, Array_sort_sorted.
  - unfold AdvisoriesPage.sortedAdvisories, AdvisoriesPage.filteredAdvisories.
    destruct (String.eqb filterCategory "").
    + apply sorted_is_fixed, Array_sort_sorted.
    + set (p := fun adv => String.eqb (Advisory.category adv) filterCategory).
      rewrite (filter_all _ p (JS.Array_sort compareAdvisories (filter p advisories))).
      * apply sorted_is_fixed, Array_sort_sorted.
      * apply Forall_forall. intros a Ha.
        apply (Permutation_in _ (Array_sort_perm _)) in Ha.
        apply filter_In in Ha. exact (proj2 Ha).
Qed.

(** X14: the advisory shown first has the highest severity of the list
    and, among the advisories of that severity, the latest timestamp. *)
Theorem first_shown_is_most_severe : forall advisories top rest a,
  AdvisoryPanel.sortedAdvisories advisories = top :: rest ->
  In a advisories ->
  Advisory.severity a <= Advisory.severity top /\
  (Advisory.severity a = Advisory.severity top ->
   Advisory.timestamp a <= Advisory.timestamp top).
Proof.
  intros advisories top rest a Hsort Hin.
  pose proof (Array_sort_sorted advisories) as Hs.
  pose proof (Array_sort_perm advisories) as Hp.
  unfold AdvisoryPanel.sortedAdvisories in Hsort. rewrite Hsort in Hs, Hp.
  apply (Permutation_in _ (Permutation_sym Hp)) in Hin.
  inversion Hs as [| ? ? _ Hall]; subst.
  destruct Hin as [<- | Hin]; [lia |].
  pose proof (proj1 (Forall_forall _ _) Hall a Hin) as H.
  unfold Spec.mayPrecede in H. lia.
Qed.

Lemma first_shown_is_most_severe_witness :
  AdvisoryPanel.sortedAdvisories [kpaoWeather; generated; advB] =
  [advB; generated; kpaoWeather] /\
  In generated [kpaoWeather; generated; advB] /\
  Advisory.severity generated <= Advisory.severity advB.
Proof.
  assert (H1 : AdvisoryPanel.sortedAdvisories [kpaoWeather; generated; advB] =
               [advB; generated; kpaoWeather]) by reflexivity.
  assert (H2 : In generated [kpaoWeather; generated; advB])
    by (right; left; reflexivity).
  exact (conj H1 (conj H2
           (proj1 (first_shown_is_most_severe _ _ _ generated H1 H2)))).
Defined.

(** X15: the page shows the panel's order restricted to the selected
    category: filtering then sorting, as the page does, gives the sorted
    list of all advisories with the other categories taken out. *)
Theorem page_is_the_filtered_panel : forall filterCategory advisories,
  AdvisoriesPage.sortedAdvisories filterCategory advisories =
  AdvisoriesPage.filteredAdvisories filterCategory
    (AdvisoryPanel.sortedAdvisories advisories).
Proof.
  intros filterCategory advisories.
  unfold AdvisoriesPage.sortedAdvisories, AdvisoriesPage.filteredAdvisories,
    AdvisoryPanel.sortedAdvisories.
  destruct (String.eqb filterCategory ""); [reflexivity |].
  symmetry. apply filter_Array_sort.
Qed.

(** X16: the page shows exactly the advisories of the selected category
    (all of them when no category is selected), each as often as it is in
    the list: never more advisories than it received, and all of them
    without filter. *)
Theorem page_shows_the_selected_category : forall filterCategory advisories a,
  let shown := AdvisoriesPage.sortedAdvisories filterCategory advisories in
  (In a shown <->
   In a advisories /\ (filterCategory = "" \/ Advisory.category a = filterCategory)) /\
  (List.length shown <= List.length advisories)%nat /\
  (filterCategory = "" -> List.length shown = List.length advisories).
Proof.
  intros filterCategory advisories a shown.
  pose proof (Array_sort_perm
                (AdvisoriesPage.filteredAdvisories filterCategory advisories)) as Hp.
  fold (AdvisoriesPage.sortedAdvisories filterCategory advisories) in Hp.
  fold shown in Hp.
  assert (Hmem : In a (AdvisoriesPage.filteredAdvisories filterCategory advisories) <->
                 In a advisories /\
                 (filterCategory = "" \/ Advisory.category a = filterCategory)).
  { unfold AdvisoriesPage.filteredAdvisories.
    destruct (String.eqb_spec filterCategory "") as [-> | Hne].
    - tauto.
    - rewrite filter_In, String.eqb_eq. tauto. }
  split; [| split].
  - rewrite <- Hmem. split; intro H.
    + exact (Permutation_in _ Hp H).
    + exact (Permutation_in _ (Permutation_sym Hp) H).
  - rewrite (Permutation_length Hp). unfold AdvisoriesPage.filteredAdvisories.
    destruct (String.eqb filterCategory ""); [lia | apply filter_length_le].
  - intros ->. rewrite (Permutation_length Hp). reflexivity.
Qed.

End MoreSortFacts.

(** ** The category filter, the airport badge and the panel's timer *)

Section MorePageFacts.

Import Inputs.

Lemma existsb_eqb_In : forall (x : string) (l : list string),
  existsb (String.eqb x) l = true <-> In x l.
Proof.
  intros x l. rewrite existsb_exists. split.
  - intros (y & Hy & E). apply String.eqb_eq in E. subst y. exact Hy.
  - intro H. exists x. split; [exact H | apply String.eqb_refl].
Qed.

Lemma Set_values_In : forall l seen x,
  In x (JS.Set_values seen l) <-> In x l /\ ~ In x seen.
Proof.
  induction l as [| y l IH]; intros seen x; simpl.
  - tauto.
  - destruct (existsb (String.eqb y) seen) eqn:E.
    + apply existsb_eqb_In in E. rewrite IH. split.
      * intros [H1 H2]. tauto.
      * intros [[<- | H1] H2]; [contradiction | tauto].
    + assert (Hy : ~ In y seen).
      { intro H. apply existsb_eqb_In in H. congruence. }
      simpl. rewrite IH. simpl. split.
      * intros [<- | [H1 H2]]; [tauto |]. split; [tauto |]. intro H. apply H2. tauto.
      * intros [[<- | H1] H2]; [tauto |].
        destruct (string_dec y x) as [-> | Hne]; [tauto |]. right. split; [exact H1 |].
        intros [E' | H]; [contradiction | contradiction].
Qed.

Lemma Set_values_NoDup : forall l seen, NoDup (JS.Set_values seen l).
Proof.
  induction l as [| y l IH]; intro seen; simpl.
  - constructor.
  - destruct (existsb (String.eqb y) seen).
    + apply IH.
    + constructor; [| apply IH].
      intro H. apply Set_values_In in H. destruct H as [_ H]. apply H. left. reflexivity.
Qed.

(** X17: the category filter offers each category of the advisories
    once, and nothing else; selecting an offered category (other than the
    empty one, which stands for all categories) never gives an empty
    list. *)
Theorem categories_are_those_of_the_advisories : forall advisories c,
  NoDup (AdvisoriesPage.categories advisories) /\
  (In c (AdvisoriesPage.categories advisories) <->
   exists adv, In adv advisories /\ Advisory.category adv = c) /\
  (In c (AdvisoriesPage.categories advisories) -> c <> "" ->
   AdvisoriesPage.sortedAdvisories c advisories <> []).
Proof.
  intros advisories c. unfold AdvisoriesPage.categories, JS.Array_from_Set.
  assert (Hmem : In c (JS.Set_values [] (map Advisory.category advisories)) <->
                 exists adv, In adv advisories /\ Advisory.category adv = c).
  { rewrite Set_values_In, in_map_iff. split.
    - intros [(adv & E & Hin) _]. exists adv. tauto.
    - intros (adv & Hin & E). split; [exists adv; tauto | intros []]. }
  split; [apply Set_values_NoDup |]. split; [exact Hmem |].
  intros Hin Hne Hempty.
  apply Hmem in Hin. destruct Hin as (adv & Hin & E).
  assert (Hshown : In adv (AdvisoriesPage.sortedAdvisories c advisories)).
  { unfold AdvisoriesPage.sortedAdvisories.
    apply (Permutation_in _ (Permutation_sym (Array_sort_perm _))).
    unfold AdvisoriesPage.filteredAdvisories.
    destruct (String.eqb_spec c "") as [-> | _]; [contradiction |].
    apply filter_In. split; [exact Hin | apply String.eqb_eq; exact E]. }
  rewrite Hempty in Hshown. destruct Hshown.
Qed.

Lemma categories_are_those_of_the_advisories_witness :
  AdvisoriesPage.categories [kpaoWeather; generated; advB; kpaoWeather] =
  ["WEATHER"; "TRAFFIC"] /\
  "TRAFFIC" <> "" /\
  AdvisoriesPage.sortedAdvisories "TRAFFIC" [kpaoWeather; generated; advB; kpaoWeather]
  <> [].
Proof.
  assert (Hne : "TRAFFIC" <> "") by discriminate.
  split; [reflexivity |]. split; [exact Hne |].
  apply (proj2 (proj2 (categories_are_those_of_the_advisories
                         [kpaoWeather; generated; advB; kpaoWeather] "TRAFFIC"))).
  - right. left. reflexivity.
  - exact Hne.
Defined.

Lemma split_piece : forall a rest,
  Spec.hyphenFree a = true ->
  JS.String_split "-"%char (a ++ String "-"%char rest) =
  a :: JS.String_split "-"%char rest.
Proof.
  induction a as [| c a IH]; intros rest H.
  - reflexivity.
  - simpl in H. apply andb_true_iff in H. destruct H as [Hc Ha].
    simpl append. simpl JS.String_split.
    apply negb_true_iff in Hc. rewrite Hc, (IH rest Ha). reflexivity.
Qed.

Lemma badge_of_id : forall airportId rest,
  Spec.hyphenFree airportId = true ->
  nth_error (JS.String_split "-"%char ("ADV-" ++ airportId ++ "-" ++ rest)) 1 =
  Some airportId.
Proof.
  intros airportId rest H.
  change ("ADV-" ++ airportId ++ "-" ++ rest)
    with ("ADV" ++ String "-"%char (airportId ++ String "-"%char rest)).
  rewrite (split_piece "ADV" _ eq_refl), (split_piece airportId rest H).
  reflexivity.
Qed.

(** X18: the airport badge of the page reads the airport back from the id
    of a generated advisory, that of the route and that of the panel's
    timer, when the airport id has no hyphen. *)
Theorem badge_shows_the_airport_of_a_generated_advisory : forall airportId shown w,
  Spec.hyphenFree airportId = true ->
  AdvisoriesPage.airportCode (fst (AdvisoriesRoute.newAdvisory airportId w)) =
  Some airportId /\
  ((JS.random w (JS.random_pos w) <? 0.2)%float = true ->
   exists adv,
     fst (AdvisoryPanel.timer airportId shown w) = adv :: shown /\
     AdvisoriesPage.airportCode adv = Some airportId).
Proof.
  intros airportId shown w H. split.
  - unfold AdvisoriesPage.airportCode.
    unfold AdvisoriesRoute.newAdvisory, JS.bind, JS.Math_random, JS.Date_now, JS.ret.
    cbn [fst Advisory.id].
    apply badge_of_id. exact H.
  - intro Hg.
    unfold AdvisoryPanel.timer, JS.bind at 1, JS.Math_random at 1.
    cbv iota beta. rewrite Hg.
    unfold JS.bind, JS.Math_random, JS.Date_now, JS.ret. cbn [fst].
    eexists. split; [reflexivity |].
    unfold AdvisoriesPage.airportCode. cbn [Advisory.id].
    change ("ADV-" ++ airportId ++ "-TRAFFIC-" ++ ?r)
      with ("ADV-" ++ airportId ++ "-" ++ ("TRAFFIC-" ++ r)).
    apply badge_of_id. exact H.
Qed.

Lemma badge_shows_the_airport_of_a_generated_advisory_witness :
  Spec.hyphenFree "KPAO" = true /\
  AdvisoriesPage.airportCode
    (fst (AdvisoriesRoute.newAdvisory "KPAO" (steady 1000 0.0625%float))) = Some "KPAO" /\
  AdvisoriesPage.airportCode
    (fst (AdvisoriesRoute.newAdvisory "K-1" (steady 1000 0.0625%float))) = Some "K".
Proof.
  assert (H : Spec.hyphenFree "KPAO" = true) by reflexivity.
  exact (conj H (conj
    (proj1 (badge_shows_the_airport_of_a_generated_advisory "KPAO" []
              (steady 1000 0.0625%float) H))
    eq_refl)).
Defined.

Lemma timer_prefix : forall airportId advisories w,
  exists prefix,
    fst (AdvisoryPanel.timer airportId advisories w) = (prefix ++ advisories)%list /\
    (List.length prefix <= 1)%nat.
Proof.
  intros airportId advisories w.
  unfold AdvisoryPanel.timer, JS.bind at 1, JS.Math_random at 1. cbv iota beta.
  destruct (_ <? 0.2)%float.
  - unfold JS.bind, JS.Math_random, JS.Date_now, JS.ret. cbn [fst].
    eexists [_]. split; [reflexivity | simpl; lia].
  - exists []. split; [reflexivity | simpl; lia].
Qed.

(** X19: the panel's timer only ever adds to the list: after any number
    of ticks the advisories the component started with are all still
    there, in their order, behind at most one new advisory for each tick;
    the timer removes none, expired or not. *)
Theorem timer_only_adds : forall n airportId advisories w,
  exists added,
    fst (Spec.ticks n airportId advisories w) = (added ++ advisories)%list /\
    (List.length added <= n)%nat.
Proof.
  induction n as [| n IH]; intros airportId advisories w.
  - exists []. split; [reflexivity | simpl; lia].
  - simpl Spec.ticks. unfold JS.bind at 1.
    destruct (timer_prefix airportId advisories w) as (prefix & Heq & Hlen).
    destruct (AdvisoryPanel.timer airportId advisories w) as [l' w'].
    simpl in Heq. subst l'.
    destruct (IH airportId (prefix ++ advisories)%list w') as (added & Heq' & Hlen').
    exists (added ++ prefix)%list. split.
    + rewrite Heq', app_assoc. reflexivity.
    + rewrite length_app. lia.
Qed.

End MorePageFacts.

(** ** The table of aircraft *)

Section MoreListFacts.

Import Inputs.

(** X20: a click on a column header makes that column the sort field; a
    click on the column already sorted by reverses the direction, so that
    two clicks on it bring the sorting back; a click on another column
    starts at the descending direction. *)
Theorem handleSortChange_toggles : forall field st,
  TrafficList.sortField (TrafficList.handleSortChange field st) = field /\
  TrafficList.handleSortChange (TrafficList.sortField st)
    (TrafficList.handleSortChange (TrafficList.sortField st) st) = st /\
  TrafficList.sortDirection (TrafficList.handleSortChange (TrafficList.sortField st) st)
    <> TrafficList.sortDirection st /\
  (TrafficList.SortField_eqb field (TrafficList.sortField st) = false ->
   TrafficList.sortDirection (TrafficList.handleSortChange field st) = TrafficList.desc).
Proof.
  intros field [f d]. unfold TrafficList.handleSortChange. simpl.
  repeat match goal with |- _ /\ _ => split end.
  - destruct field, f; reflexivity.
  - destruct f, d; reflexivity.
  - destruct f, d; simpl; discriminate.
  - intros ->. reflexivity.
Qed.

Lemma handleSortChange_toggles_witness :
  TrafficList.SortField_eqb TrafficList.speed
    (TrafficList.sortField TrafficList.initialSorting) = false /\
  TrafficList.handleSortChange TrafficList.speed TrafficList.initialSorting =
  {| TrafficList.sortField := TrafficList.speed;
     TrafficList.sortDirection := TrafficList.desc |} /\
  TrafficList.sortDirection
    (TrafficList.handleSortChange TrafficList.speed TrafficList.initialSorting) =
  TrafficList.desc.
Proof.
  exact (conj eq_refl (conj eq_refl
    (proj2 (proj2 (proj2 (handleSortChange_toggles TrafficList.speed
                            TrafficList.initialSorting))) eq_refl))).
Defined.

Lemma alert_decides : forall a b,
  let comparison :=
    (TrafficList.alertOrder (Aircraft.alertLevel b) -
     TrafficList.alertOrder (Aircraft.alertLevel a))%float in
  (negb (comparison =? 0)%float = true /\
   (comparison <? 0)%float = (Spec.alertRank b <? Spec.alertRank a)) \/
  (negb (comparison =? 0)%float = false /\ Spec.alertRank a = Spec.alertRank b).
Proof.
  intros a b. unfold Spec.alertRank.
  destruct (Aircraft.alertLevel a) as [[| | |] |];
    destruct (Aircraft.alertLevel b) as [[| | |] |];
    cbv zeta; vm_compute; auto.
Qed.

Lemma compareAircraft_alert : forall localeCompare st a b,
  ((TrafficList.compareAircraft localeCompare st a b <? 0)%float = true ->
   Spec.alertRank a >= Spec.alertRank b) /\
  ((TrafficList.compareAircraft localeCompare st a b <? 0)%float = false ->
   Spec.alertRank b >= Spec.alertRank a).
Proof.
  intros localeCompare st a b. unfold TrafficList.compareAircraft.
  destruct (alert_decides a b) as [[Hne Hlt] | [Heq Hrank]]; cbv zeta in *.
  - rewrite Hne, Hlt. split; intro H.
    + apply Z.ltb_lt in H. lia.
    + apply Z.ltb_ge in H. lia.
  - rewrite Heq. split; intros _; lia.
Qed.

Lemma sort_insert_num_perm : forall (cmp : Aircraft.t -> Aircraft.t -> float) x l,
  Permutation (JS.sort_insert_num cmp x l) (x :: l).
Proof.
  intros cmp x l. induction l as [| y l IH]; simpl.
  - apply Permutation_refl.
  - destruct (cmp y x <? 0)%float.
    + apply perm_trans with (y :: x :: l); [apply perm_skip; exact IH | apply perm_swap].
    + apply Permutation_refl.
Qed.

Lemma Array_sort_num_perm : forall (cmp : Aircraft.t -> Aircraft.t -> float) l,
  Permutation (JS.Array_sort_num cmp l) l.
Proof.
  intros cmp l. induction l as [| x l IH]; simpl.
  - apply perm_nil.
  - apply perm_trans with (x :: JS.Array_sort_num cmp l);
      [apply sort_insert_num_perm | apply perm_skip; exact IH].
Qed.

Lemma sort_insert_num_alert : forall localeCompare st x l,
  StronglySorted Spec.alertNotBelow l ->
  StronglySorted Spec.alertNotBelow
    (JS.sort_insert_num (TrafficList.compareAircraft localeCompare st) x l).
Proof.
  intros localeCompare st x l Hs. induction Hs as [| y l Hs IH Hall]; simpl.
  - constructor; constructor.
  - destruct (compareAircraft_alert localeCompare st y x) as [Hlt Hge].
    destruct (TrafficList.compareAircraft localeCompare st y x <? 0)%float.
    + constructor; [exact IH |].
      apply (Permutation_Forall (Permutation_sym (sort_insert_num_perm _ x l))).
      constructor; [exact (Hlt eq_refl) | exact Hall].
    + constructor; [constructor; assumption |].
      constructor; [exact (Hge eq_refl) |].
      eapply Forall_impl; [| exact Hall].
      intros z Hz. unfold Spec.alertNotBelow in *. pose proof (Hge eq_refl). lia.
Qed.

(** X21: whatever the sort field, the direction and the comparison of
    callsigns, the table lists the aircraft it was given, each once for
    each time it was given, grouped by alert level: critical first, then
    warning, caution, and those without alert; the direction of the sort
    never puts a lower alert above a higher one. *)
Theorem sortedAircraft_groups_by_alert : forall localeCompare st aircraft,
  Permutation (TrafficList.sortedAircraft localeCompare st aircraft) aircraft /\
  StronglySorted Spec.alertNotBelow
    (TrafficList.sortedAircraft localeCompare st aircraft).
Proof.
  intros localeCompare st aircraft. unfold TrafficList.sortedAircraft.
  split; [apply Array_sort_num_perm |].
  induction aircraft as [| x l IH]; simpl.
  - constructor.
  - apply sort_insert_num_alert. exact IH.
Qed.

Lemma mapM_list_update : forall l w,
  exists l',
    JS.mapM TrafficList.update l w =
    (l', {| JS.clock := JS.clock w; JS.clock_pos := JS.clock_pos w;
            JS.random := JS.random w;
            JS.random_pos :=
              (List.length (filter (fun a => negb (Aircraft.onGround a)) l) +
               JS.random_pos w)%nat |}) /\
    Forall2 (fun a a' =>
               Spec.movedFrom a a' /\ Aircraft.position a' = Aircraft.position a) l l'.
Proof.
  induction l as [| a l IH]; intros [clk cp rnd rp].
  - exists []. split; [reflexivity | constructor].
  - simpl JS.mapM. unfold JS.bind at 1.
    destruct (TrafficList.update a {| JS.clock := clk; JS.clock_pos := cp;
                                      JS.random := rnd; JS.random_pos := rp |})
      as [a' w1] eqn:Ha.
    assert (Hw1 : w1 = {| JS.clock := clk; JS.clock_pos := cp; JS.random := rnd;
                          JS.random_pos := ((if Aircraft.onGround a then 0 else 1) + rp)%nat |}
                  /\ Spec.movedFrom a a' /\ Aircraft.position a' = Aircraft.position a).
    { unfold TrafficList.update, JS.bind, JS.Math_random, JS.ret in Ha.
      simpl in Ha. unfold Spec.movedFrom.
      destruct (Aircraft.onGround a); simpl in Ha;
        injection Ha as <- <-; repeat split; reflexivity || discriminate. }
    destruct Hw1 as (-> & Hmoved & Hpos).
    destruct (IH {| JS.clock := clk; JS.clock_pos := cp; JS.random := rnd;
                    JS.random_pos := ((if Aircraft.onGround a then 0 else 1) + rp)%nat |})
      as (l' & Heq & Hall).
    unfold JS.bind at 1. rewrite Heq. cbn [JS.clock JS.clock_pos JS.random JS.random_pos].
    exists (a' :: l'). split.
    + unfold JS.ret. f_equal. f_equal. simpl filter.
      destruct (Aircraft.onGround a); simpl; lia.
    + constructor; [split; assumption | exact Hall].
Qed.

(** X22: the refresh of the table keeps the aircraft, their order, ids,
    callsigns, positions, headings, vertical rates, ground flags, types and
    alert levels; it moves each altitude by one second of vertical rate (an
    aircraft on the ground is put at altitude 0 and speed 0), as the
    aircraft route does, and draws one random number for each aircraft that
    is not on the ground. *)
Theorem list_refresh_keeps_the_aircraft : forall aircraft w,
  exists refreshed,
    fst (TrafficList.interval aircraft w) = refreshed /\
    Forall2 (fun a a' =>
               Spec.movedFrom a a' /\ Aircraft.position a' = Aircraft.position a)
      aircraft refreshed /\
    List.length refreshed = List.length aircraft /\
    JS.random_pos (snd (TrafficList.interval aircraft w)) =
    (List.length (filter (fun a => negb (Aircraft.onGround a)) aircraft) +
     JS.random_pos w)%nat.
Proof.
  intros aircraft w. unfold TrafficList.interval.
  destruct (mapM_list_update aircraft w) as (l' & Heq & Hall).
  exists l'. rewrite Heq. cbn [fst snd JS.random_pos].
  repeat split; try reflexivity; [exact Hall |].
  symmetry. exact (Forall2_length Hall).
Qed.

End MoreListFacts.

(** ** The map *)

Section MoreMapFacts.

Import Inputs.

Variable Math_cos : float -> float.
Variable Math_sin : float -> float.

Lemma onApproach_descendingAirborne : forall start threshold a,
  TrafficMap.onApproach start threshold a = true ->
  Spec.descendingAirborne a = true.
Proof.
  intros start threshold a H. unfold TrafficMap.onApproach in H.
  unfold Spec.descendingAirborne.
  destruct (Aircraft.onGround a); [discriminate |].
  apply andb_true_iff in H. destruct H as [_ H]. rewrite H. reflexivity.
Qed.

Lemma filter_length_impl : forall (A : Type) (p q : A -> bool) (l : list A),
  (forall a, p a = true -> q a = true) ->
  (List.length (filter p l) <= List.length (filter q l))%nat.
Proof.
  intros A p q l H. induction l as [| a l IH]; simpl.
  - lia.
  - destruct (p a) eqn:Hp.
    + rewrite (H a Hp). simpl. lia.
    + destruct (q a); simpl; lia.
Qed.

(** X23: an approach path counts only aircraft of the list that are not on
    the ground and have a negative vertical rate; so when fewer than two
    aircraft of the list are airborne and descending, every approach path
    is drawn green, wherever the aircraft are. *)
Theorem approach_counts_descending_airborne_only : forall airport aircraft,
  (forall runway a,
     In a (TrafficMap.aircraftOnApproach Math_cos Math_sin runway aircraft) ->
     In a aircraft /\ Aircraft.onGround a = false /\
     (Aircraft.verticalRate a <? 0)%float = true) /\
  ((List.length (filter Spec.descendingAirborne aircraft) < 2)%nat ->
   forall paths path,
     TrafficMap.renderApproachPaths Math_cos Math_sin (Some airport) aircraft = Some paths ->
     In (Some path) paths ->
     TrafficMap.color path = "green").
Proof.
  intros airport aircraft. split.
  - intros runway a Hin. unfold TrafficMap.aircraftOnApproach in Hin.
    apply filter_In in Hin. destruct Hin as [Hin Hon].
    apply onApproach_descendingAirborne in Hon.
    unfold Spec.descendingAirborne in Hon.
    apply andb_true_iff in Hon. destruct Hon as [Hg Hv].
    apply negb_true_iff in Hg. tauto.
  - intros Hfew paths path Hpaths Hin.
    simpl in Hpaths. injection Hpaths as <-.
    apply in_map_iff in Hin. destruct Hin as (runway & Hpath & _).
    unfold TrafficMap.renderApproachPath in Hpath.
    destruct (negb (Runway.active runway)); [discriminate |].
    injection Hpath as <-. cbn [TrafficMap.color].
    assert (Hlen : (List.length
                      (TrafficMap.aircraftOnApproach Math_cos Math_sin runway aircraft)
                    < 2)%nat).
    { eapply Nat.le_lt_trans; [| exact Hfew].
      unfold TrafficMap.aircraftOnApproach.
      apply filter_length_impl. intros a. apply onApproach_descendingAirborne. }
    destruct (List.length (TrafficMap.aircraftOnApproach Math_cos Math_sin runway aircraft))
      as [| [| n]]; [reflexivity | reflexivity | lia].
Qed.

(** X24: the map draws one line for each runway of the airport and, in
    the same order, an approach path for each active runway and none for an
    inactive one: the runways with an approach path are those drawn yellow
    (weight 8), the others are drawn white (weight 5); the path of a runway
    ends at its first threshold, where its line starts. *)
Theorem approach_paths_match_runway_lines : forall airport aircraft,
  exists lines paths,
    TrafficMap.renderRunways (Some airport) = Some lines /\
    TrafficMap.renderApproachPaths Math_cos Math_sin (Some airport) aircraft = Some paths /\
    List.length lines = List.length (Airport.runways airport) /\
    Forall2
      (fun line path =>
         match path with
         | Some p =>
             TrafficMap.runwayColor line = "yellow" /\ TrafficMap.runwayWeight line = 8 /\
             nth_error (TrafficMap.positions p) 1 =
             nth_error (TrafficMap.runwayPositions line) 0
         | None =>
             TrafficMap.runwayColor line = "white" /\ TrafficMap.runwayWeight line = 5
         end)
      lines paths.
Proof.
  intros airport aircraft. simpl.
  eexists. eexists. split; [reflexivity |]. split; [reflexivity |].
  split; [apply length_map |].
  induction (Airport.runways airport) as [| runway l IH]; simpl.
  - constructor.
  - constructor; [| exact IH].
    unfold TrafficMap.renderApproachPath, TrafficMap.renderRunway.
    destruct (Runway.active runway); simpl; repeat split.
Qed.

End MoreMapFacts.

Section MoreMapRefreshFacts.

Import Inputs.

Lemma approach_counts_descending_airborne_only_witness :
  (List.length (filter Spec.descendingAirborne [taxiing; climbing; onFinal]) < 2)%nat /\
  TrafficMap.renderApproachPaths cos0 sin0 (Some airport18) [taxiing; climbing; onFinal] =
  Some [Some greenPath18] /\
  In (Some greenPath18) [Some greenPath18] /\
  TrafficMap.color greenPath18 = "green".
Proof.
  assert (H1 : (List.length (filter Spec.descendingAirborne [taxiing; climbing; onFinal])
                < 2)%nat) by (vm_compute; lia).
  assert (H2 : TrafficMap.renderApproachPaths cos0 sin0 (Some airport18)
                 [taxiing; climbing; onFinal] = Some [Some greenPath18])
    by (vm_compute; reflexivity).
  assert (H3 : In (Some greenPath18) [Some greenPath18]) by (left; reflexivity).
  exact (conj H1 (conj H2 (conj H3
    (proj2 (approach_counts_descending_airborne_only cos0 sin0 airport18
              [taxiing; climbing; onFinal]) H1 _ _ H2 H3)))).
Defined.


Lemma mapM_move : forall l w,
  exists l',
    JS.mapM TrafficMap.move l w =
    (l', {| JS.clock := JS.clock w; JS.clock_pos := JS.clock_pos w;
            JS.random := JS.random w;
            JS.random_pos := (2 * List.length l + JS.random_pos w)%nat |}) /\
    Forall2 Spec.sameButPosition l l'.
Proof.
  induction l as [| a l IH]; intros [clk cp rnd rp].
  - exists []. split; [reflexivity | constructor].
  - simpl JS.mapM. unfold JS.bind at 1.
    unfold TrafficMap.move at 1, JS.bind, JS.Math_random, JS.ret.
    cbn [JS.clock JS.clock_pos JS.random JS.random_pos].
    destruct (IH {| JS.clock := clk; JS.clock_pos := cp; JS.random := rnd;
                    JS.random_pos := S (S rp) |}) as (l' & Heq & Hall).
    fold (@JS.bind (list Aircraft.t)) in *.
    unfold JS.bind in Heq |- *. rewrite Heq.
    cbn [JS.clock JS.clock_pos JS.random JS.random_pos].
    eexists. split.
    + f_equal. f_equal. simpl List.length. lia.
    + constructor; [| exact Hall]. unfold Spec.sameButPosition. repeat split.
Qed.

(** X25: the refresh of the map moves positions and nothing else: the
    aircraft keep their order, ids, altitudes, speeds, vertical rates and
    ground flags, so that the aircraft that are airborne and descending are
    the same before and after; it draws two random numbers for each
    aircraft. *)
Theorem map_refresh_moves_positions_only : forall aircraft w,
  exists moved,
    fst (TrafficMap.interval aircraft w) = moved /\
    Forall2 Spec.sameButPosition aircraft moved /\
    map Spec.descendingAirborne moved = map Spec.descendingAirborne aircraft /\
    JS.random_pos (snd (TrafficMap.interval aircraft w)) =
    (2 * List.length aircraft + JS.random_pos w)%nat.
Proof.
  intros aircraft w. unfold TrafficMap.interval.
  destruct (mapM_move aircraft w) as (l' & Heq & Hall).
  exists l'. rewrite Heq. cbn [fst snd JS.random_pos].
  repeat split; try reflexivity; [exact Hall |].
  clear Heq. induction Hall as [| a a' l l' Ha _ IH]; simpl.
  - reflexivity.
  - rewrite IH. f_equal. unfold Spec.descendingAirborne.
    destruct Ha as (_ & _ & _ & _ & _ & -> & -> & _). reflexivity.
Qed.

End MoreMapRefreshFacts.
